(** * Circuit breaker: the state-pattern class and the enum class

    [src/src/circuitBreaker.ts] holds two classes named [CircuitBreaker].
    The first (lines 28-240) delegates every call to a per-state handler
    object ([ClosedState], [OpenState], [HalfOpenState]); the second
    (lines 266-359) keeps a [CircuitBreakerState] tag and switches on it.
    Both are embedded below, each in a module of its own, and the
    statements of the specification are settled on them.

    Modelling conventions.
    - A JavaScript [number] that holds a count, a duration or a
      [Date.now()] reading is a [Z]; the source performs only [++], [-]
      and [>=] on them, which are exact on integers below 2^53.
    - [number | null] is [option Z]; the test [lastFailureTime && ...]
      is JavaScript truthiness, so [null] and [0] both fail it.
    - [responseTimes.push(x)] appends at the end of a [list Z].
    - An [async] method runs synchronously up to [await service()] and is
      resumed when the promise settles.  Each method is therefore split in
      the part before the [await] ([enter]) and the part after it
      ([resume]); a call that is awaited before the next one starts, as
      the driver in [src/src/index.ts] does, is [enter] followed by
      [resume].
    - [Date.now()] is an ambient read.  Every call site gets a reading of
      its own, supplied by the environment in a [Reads] record, so nothing
      is assumed about how the clock moves between two reads.
    - [console.log] and [console.error] print and change nothing, and the
      calls with a literal argument are left out.  The argument of
      [console.error((error as Error).message)] (lines 153, 222 and 323)
      is evaluated first, and reading [.message] of [null] or [undefined]
      throws a [TypeError]: a service that rejects with such a reason
      makes the [catch] block stop at its first line.  That is the
      [RejectedNullish] case of the functions that resume a call. *)

From Stdlib Require Import ZArith List String Bool Lia.
Import ListNotations.
Open Scope Z_scope.

(** ** Shared declarations (lines 4-14 and 245-264) *)

Inductive CircuitBreakerState : Type :=
  | CLOSED
  | OPEN
  | HALF_OPEN.

(** [===] on the enum's members. *)
Definition sameState (a b : CircuitBreakerState) : bool :=
  match a, b with
  | CLOSED, CLOSED => true
  | OPEN, OPEN => true
  | HALF_OPEN, HALF_OPEN => true
  | _, _ => false
  end.

Record CircuitBreakerConfig : Type := mkConfig {
  failureThreshold : Z;
  timeout : Z;
  maxHalfOpenRequests : Z
}.

(** How the promise returned by [service()] settles: with a value, with
    a reason whose [message] can be read (an [Error], or any value other
    than [null] and [undefined]; it is named by its message), or with the
    reason [null] or [undefined].  A service that throws before it returns
    a promise is caught by the same [try] and counts as a rejection.  A
    reason whose [message] is a getter that itself throws is not
    modelled. *)
Inductive Settlement : Type :=
  | Resolved (value : string)
  | Rejected (message : string)
  | RejectedNullish.

(** How the promise returned by [callService] settles: with the value of
    the service, with a thrown reason named by its message (the reason of
    the service, or one of the two errors the breaker makes), or with
    the [TypeError] raised by reading [.message] of [null] or
    [undefined]. *)
Inductive CallResult : Type :=
  | Returned (value : string)
  | Thrown (message : string)
  | ThrownTypeError.


(** The readings of [Date.now()] during one call, one field per call site:
    - [atEntry]: [startTime] at lines 145, 179 and 302;
    - [atGate]: [now] at lines 180 and 305;
    - [atBlocked]: [endTime] in the blocked branch, lines 187 and 310;
    - [atProbe]: [startTime] of [HalfOpenState.callService], line 214;
    - [atSettle]: [endTime] after the [await], lines 148, 154, 217, 223,
      318 and 324;
    - [atFailure]: the reading stored in [lastFailureTime], lines 84 and
      344. *)
Record Reads : Type := mkReads {
  atEntry : Z;
  atGate : Z;
  atBlocked : Z;
  atProbe : Z;
  atSettle : Z;
  atFailure : Z
}.

(** One awaited call: how the service would settle if it is invoked, and
    what the clock reads. *)
Record Attempt : Type := mkAttempt {
  settles : Settlement;
  reads : Reads
}.

(** What the caller and a call counter on the service observe. *)
Record Report : Type := mkReport {
  result : CallResult;
  invocations : nat
}.

Definition OPEN_MESSAGE : string := "Circuit is OPEN - request blocked"%string.
Definition PROBE_LIMIT_MESSAGE : string := "Max HALF_OPEN requests exceeded"%string.

(** [lastFailureTime && now - lastFailureTime >= timeout] (lines 182, 306). *)
Definition cooldownElapsed (lastFailureTime : option Z) (now timeout : Z) : bool :=
  match lastFailureTime with
  | None => false
  | Some t => negb (t =? 0) && (now - t >=? timeout)
  end.

(** What a call that invoked the service hands to its caller. *)
Definition settledBy (s : Settlement) : CallResult :=
  match s with
  | Resolved v => Returned v
  | Rejected e => Thrown e
  | RejectedNullish => ThrownTypeError
  end.

Definition isRejected (s : Settlement) : bool :=
  match s with
  | Resolved _ => false
  | Rejected _ => true
  | RejectedNullish => true
  end.

(** The service rejects with a reason whose message can be read. *)
Definition hasReason (s : Settlement) : bool :=
  match s with
  | Rejected _ => true
  | _ => false
  end.

(** The service rejects with [null] or [undefined]. *)
Definition isNullish (s : Settlement) : bool :=
  match s with
  | RejectedNullish => true
  | _ => false
  end.

(** ** The state-pattern class (lines 16-240) *)

Module StatePattern.

(** The three classes that implement [State]; the context holds one
    instance, and none of them has fields. *)
Inductive State : Type :=
  | ClosedState
  | OpenState
  | HalfOpenState.

Record CircuitBreaker : Type := mkCircuitBreaker {
  state : State;
  failureCount : Z;
  lastFailureTime : option Z;
  config : CircuitBreakerConfig;
  responseTimes : list Z;
  halfOpenRequestCount : Z
}.

Definition new (cfg : CircuitBreakerConfig) : CircuitBreaker :=
  {| state := ClosedState;
     failureCount := 0;
     lastFailureTime := None;
     config := cfg;
     responseTimes := [];
     halfOpenRequestCount := 0 |}.

Definition getState (ctx : CircuitBreaker) : CircuitBreakerState :=
  match state ctx with
  | ClosedState => CLOSED
  | OpenState => OPEN
  | HalfOpenState => HALF_OPEN
  end.

Definition getResponseTimes (ctx : CircuitBreaker) : list Z := responseTimes ctx.

Definition setState (ctx : CircuitBreaker) (s : State) : CircuitBreaker :=
  {| state := s;
     failureCount := failureCount ctx;
     lastFailureTime := lastFailureTime ctx;
     config := config ctx;
     responseTimes := responseTimes ctx;
     halfOpenRequestCount := halfOpenRequestCount ctx |}.

Definition recordFailure (ctx : CircuitBreaker) (dateNow : Z) : CircuitBreaker :=
  {| state := state ctx;
     failureCount := failureCount ctx + 1;
     lastFailureTime := Some dateNow;
     config := config ctx;
     responseTimes := responseTimes ctx;
     halfOpenRequestCount := halfOpenRequestCount ctx |}.

Definition reset (ctx : CircuitBreaker) : CircuitBreaker :=
  {| state := state ctx;
     failureCount := 0;
     lastFailureTime := None;
     config := config ctx;
     responseTimes := responseTimes ctx;
     halfOpenRequestCount := 0 |}.

Definition recordResponseTime (ctx : CircuitBreaker) (time : Z) : CircuitBreaker :=
  {| state := state ctx;
     failureCount := failureCount ctx;
     lastFailureTime := lastFailureTime ctx;
     config := config ctx;
     responseTimes := responseTimes ctx ++ [time];
     halfOpenRequestCount := halfOpenRequestCount ctx |}.

Definition incrementHalfOpenRequest (ctx : CircuitBreaker) : CircuitBreaker :=
  {| state := state ctx;
     failureCount := failureCount ctx;
     lastFailureTime := lastFailureTime ctx;
     config := config ctx;
     responseTimes := responseTimes ctx;
     halfOpenRequestCount := halfOpenRequestCount ctx + 1 |}.

(** The handler whose [callService] is suspended at [await service()]:
    line 147 or line 216.  [OpenState.callService] has no [await]. *)
Inductive Awaiter : Type :=
  | InClosedState
  | InHalfOpenState.

(** Where the synchronous part of a call ends: suspended on the service,
    which has then been invoked once, or rejected before the service was
    touched. *)
Inductive Entered : Type :=
  | Await (this : Awaiter) (startTime : Z)
  | Throw (message : string).

(** *** [ClosedState] (lines 143-172) *)

Definition ClosedState_enter (context : CircuitBreaker) (rd : Reads)
  : CircuitBreaker * Entered :=
  let startTime := atEntry rd in
  (context, Await InClosedState startTime).

Definition ClosedState_onSuccess (context : CircuitBreaker) : CircuitBreaker :=
  reset context.

Definition ClosedState_onFailure (context : CircuitBreaker) (rd : Reads)
  : CircuitBreaker :=
  let context := recordFailure context (atFailure rd) in
  if failureCount context >=? failureThreshold (config context)
  then setState context OpenState
  else context.

Definition ClosedState_resume (context : CircuitBreaker) (startTime : Z)
    (s : Settlement) (rd : Reads) : CircuitBreaker * CallResult :=
  match s with
  | Resolved value =>
      let endTime := atSettle rd in
      let context := recordResponseTime context (endTime - startTime) in
      let context := ClosedState_onSuccess context in
      (context, Returned value)
  | Rejected error =>
      let endTime := atSettle rd in
      let context := recordResponseTime context (endTime - startTime) in
      let context := ClosedState_onFailure context rd in
      (context, Thrown error)
  | RejectedNullish =>
      (* line 153 throws: lines 154-157 do not run *)
      (context, ThrownTypeError)
  end.

(** *** [HalfOpenState] (lines 205-240) *)

Definition HalfOpenState_enter (context : CircuitBreaker) (rd : Reads)
  : CircuitBreaker * Entered :=
  if halfOpenRequestCount context >=? maxHalfOpenRequests (config context)
  then (setState context OpenState, Throw PROBE_LIMIT_MESSAGE)
  else
    let context := incrementHalfOpenRequest context in
    let startTime := atProbe rd in
    (context, Await InHalfOpenState startTime).

Definition HalfOpenState_onSuccess (context : CircuitBreaker) : CircuitBreaker :=
  let context := setState context ClosedState in
  reset context.

Definition HalfOpenState_onFailure (context : CircuitBreaker) : CircuitBreaker :=
  setState context OpenState.

Definition HalfOpenState_resume (context : CircuitBreaker) (startTime : Z)
    (s : Settlement) (rd : Reads) : CircuitBreaker * CallResult :=
  match s with
  | Resolved value =>
      let endTime := atSettle rd in
      let context := recordResponseTime context (endTime - startTime) in
      let context := HalfOpenState_onSuccess context in
      (context, Returned value)
  | Rejected error =>
      let endTime := atSettle rd in
      let context := recordResponseTime context (endTime - startTime) in
      let context := HalfOpenState_onFailure context in
      (context, Thrown error)
  | RejectedNullish =>
      (* line 222 throws: lines 223-226 do not run *)
      (context, ThrownTypeError)
  end.

(** *** [OpenState] (lines 177-200)

    [context.callService(service)] at line 185 goes back through the
    context, which dispatches on the state just set; the dispatcher is a
    parameter here and the knot is tied in [enter]. *)

Definition OpenState_enter
    (callService : CircuitBreaker -> Reads -> option (CircuitBreaker * Entered))
    (context : CircuitBreaker) (rd : Reads)
  : option (CircuitBreaker * Entered) :=
  let startTime := atEntry rd in
  let now := atGate rd in
  let lastFailureTime := lastFailureTime context in
  if cooldownElapsed lastFailureTime now (timeout (config context))
  then
    let context := setState context HalfOpenState in
    callService context rd
  else
    let endTime := atBlocked rd in
    let context := recordResponseTime context (endTime - startTime) in
    Some (context, Throw OPEN_MESSAGE).

(** Lines 193-199: both are no-ops, and nothing calls them. *)
Definition OpenState_onSuccess (context : CircuitBreaker) : CircuitBreaker :=
  context.

Definition OpenState_onFailure (context : CircuitBreaker) : CircuitBreaker :=
  context.

(** *** [CircuitBreaker.callService] (lines 67-69)

    [this.state.callService(this, service)], up to the [await].  The
    recursion through [OpenState] is bounded by [fuel]; [enter_fuel]
    below shows that two units always suffice. *)

Fixpoint enter (fuel : nat) (ctx : CircuitBreaker) (rd : Reads)
  : option (CircuitBreaker * Entered) :=
  match fuel with
  | O => None
  | S fuel' =>
      match state ctx with
      | ClosedState => Some (ClosedState_enter ctx rd)
      | OpenState => OpenState_enter (enter fuel') ctx rd
      | HalfOpenState => Some (HalfOpenState_enter ctx rd)
      end
  end.

(** The part after the [await]: [this] is the handler that was suspended,
    whatever the context's state has become meanwhile. *)
Definition resume (this : Awaiter) (ctx : CircuitBreaker) (startTime : Z)
    (s : Settlement) (rd : Reads) : CircuitBreaker * CallResult :=
  match this with
  | InClosedState => ClosedState_resume ctx startTime s rd
  | InHalfOpenState => HalfOpenState_resume ctx startTime s rd
  end.

(** A call that is awaited before anything else touches the breaker. *)
Definition callService (ctx : CircuitBreaker) (a : Attempt)
  : option (CircuitBreaker * Report) :=
  match enter 2 ctx (reads a) with
  | None => None
  | Some (ctx, Throw message) =>
      Some (ctx, {| result := Thrown message; invocations := 0 |})
  | Some (ctx, Await this startTime) =>
      let (ctx, r) := resume this ctx startTime (settles a) (reads a) in
      Some (ctx, {| result := r; invocations := 1 |})
  end.

(** A loop of awaited calls, as in [runWithCircuitBreaker]. *)
Fixpoint run (ctx : CircuitBreaker) (attempts : list Attempt)
  : option (CircuitBreaker * list Report) :=
  match attempts with
  | [] => Some (ctx, [])
  | a :: rest =>
      match callService ctx a with
      | None => None
      | Some (ctx, r) =>
          match run ctx rest with
          | None => None
          | Some (ctx, rs) => Some (ctx, r :: rs)
          end
      end
  end.

(** Calls started one after the other with none of them settled yet: the
    synchronous parts only. *)
Fixpoint enterAll (ctx : CircuitBreaker) (rds : list Reads)
  : option (CircuitBreaker * list Entered) :=
  match rds with
  | [] => Some (ctx, [])
  | rd :: rest =>
      match enter 2 ctx rd with
      | None => None
      | Some (ctx, e) =>
          match enterAll ctx rest with
          | None => None
          | Some (ctx, es) => Some (ctx, e :: es)
          end
      end
  end.

End StatePattern.

(** ** The enum class (lines 266-359) *)

Module EnumVariant.

Record CircuitBreaker : Type := mkCircuitBreaker {
  state : CircuitBreakerState;
  failureCount : Z;
  lastFailureTime : option Z;
  config : CircuitBreakerConfig;
  responseTimes : list Z
}.

Definition new (cfg : CircuitBreakerConfig) : CircuitBreaker :=
  {| state := CLOSED;
     failureCount := 0;
     lastFailureTime := None;
     config := cfg;
     responseTimes := [] |}.

Definition getState (this : CircuitBreaker) : CircuitBreakerState := state this.

Definition getResponseTimes (this : CircuitBreaker) : list Z := responseTimes this.

Definition setState (this : CircuitBreaker) (s : CircuitBreakerState)
  : CircuitBreaker :=
  {| state := s;
     failureCount := failureCount this;
     lastFailureTime := lastFailureTime this;
     config := config this;
     responseTimes := responseTimes this |}.

Definition push (this : CircuitBreaker) (time : Z) : CircuitBreaker :=
  {| state := state this;
     failureCount := failureCount this;
     lastFailureTime := lastFailureTime this;
     config := config this;
     responseTimes := responseTimes this ++ [time] |}.

Definition reset (this : CircuitBreaker) : CircuitBreaker :=
  {| state := state this;
     failureCount := 0;
     lastFailureTime := None;
     config := config this;
     responseTimes := responseTimes this |}.

Definition onSuccess (this : CircuitBreaker) : CircuitBreaker :=
  if sameState (state this) HALF_OPEN then
    let this := setState this CLOSED in
    reset this
  else if sameState (state this) CLOSED then
    reset this
  else this.

Definition onFailure (this : CircuitBreaker) (rd : Reads) : CircuitBreaker :=
  let this :=
    {| state := state this;
       failureCount := failureCount this + 1;
       lastFailureTime := Some (atFailure rd);
       config := config this;
       responseTimes := responseTimes this |} in
  if sameState (state this) CLOSED
     && (failureCount this >=? failureThreshold (config this))
  then setState this OPEN
  else if sameState (state this) HALF_OPEN
  then setState this OPEN
  else this.

Inductive Entered : Type :=
  | Await (startTime : Z)
  | Throw (message : string).

(** Lines 302-314 and the call at line 317. *)
Definition enter (this : CircuitBreaker) (rd : Reads) : CircuitBreaker * Entered :=
  let startTime := atEntry rd in
  if sameState (state this) OPEN then
    let now := atGate rd in
    if cooldownElapsed (lastFailureTime this) now (timeout (config this))
    then
      let this := setState this HALF_OPEN in
      (this, Await startTime)
    else
      let endTime := atBlocked rd in
      let this := push this (endTime - startTime) in
      (this, Throw OPEN_MESSAGE)
  else (this, Await startTime).

(** Lines 318-327. *)
Definition resume (this : CircuitBreaker) (startTime : Z) (s : Settlement)
    (rd : Reads) : CircuitBreaker * CallResult :=
  match s with
  | Resolved value =>
      let endTime := atSettle rd in
      let this := push this (endTime - startTime) in
      let this := onSuccess this in
      (this, Returned value)
  | Rejected error =>
      let endTime := atSettle rd in
      let this := push this (endTime - startTime) in
      let this := onFailure this rd in
      (this, Thrown error)
  | RejectedNullish =>
      (* line 323 throws: lines 324-327 do not run *)
      (this, ThrownTypeError)
  end.

Definition callService (this : CircuitBreaker) (a : Attempt)
  : CircuitBreaker * Report :=
  match enter this (reads a) with
  | (this, Throw message) =>
      (this, {| result := Thrown message; invocations := 0 |})
  | (this, Await startTime) =>
      let (this, r) := resume this startTime (settles a) (reads a) in
      (this, {| result := r; invocations := 1 |})
  end.

Fixpoint run (this : CircuitBreaker) (attempts : list Attempt)
  : CircuitBreaker * list Report :=
  match attempts with
  | [] => (this, [])
  | a :: rest =>
      let (this, r) := callService this a in
      let (this, rs) := run this rest in
      (this, r :: rs)
  end.

Fixpoint enterAll (this : CircuitBreaker) (rds : list Reads)
  : CircuitBreaker * list Entered :=
  match rds with
  | [] => (this, [])
  | rd :: rest =>
      let (this, e) := enter this rd in
      let (this, es) := enterAll this rest in
      (this, e :: es)
  end.

End EnumVariant.

(** ** Observations and scenarios used by the statements *)

(** What [getState], [getResponseTimes] and a debugger show of a breaker
    of either class, the probe counter of the state-pattern class apart. *)
Record View : Type := mkView {
  viewState : CircuitBreakerState;
  viewFailureCount : Z;
  viewLastFailureTime : option Z;
  viewResponseTimes : list Z
}.

Definition viewSP (ctx : StatePattern.CircuitBreaker) : View :=
  {| viewState := StatePattern.getState ctx;
     viewFailureCount := StatePattern.failureCount ctx;
     viewLastFailureTime := StatePattern.lastFailureTime ctx;
     viewResponseTimes := StatePattern.getResponseTimes ctx |}.

Definition viewEN (this : EnumVariant.CircuitBreaker) : View :=
  {| viewState := EnumVariant.getState this;
     viewFailureCount := EnumVariant.failureCount this;
     viewLastFailureTime := EnumVariant.lastFailureTime this;
     viewResponseTimes := EnumVariant.getResponseTimes this |}.

(** The two classes, built from the same configuration and driven by the
    same awaited calls, cannot be told apart. *)
Definition equivalentOn (cfg : CircuitBreakerConfig) (attempts : list Attempt)
  : Prop :=
  exists ctx rs,
    StatePattern.run (StatePattern.new cfg) attempts = Some (ctx, rs)
    /\ rs = snd (EnumVariant.run (EnumVariant.new cfg) attempts)
    /\ viewSP ctx = viewEN (fst (EnumVariant.run (EnumVariant.new cfg) attempts)).

(** The call runs the service while the enum class is [HALF_OPEN], and the
    service fails. *)
Definition probeFails (this : EnumVariant.CircuitBreaker) (a : Attempt) : bool :=
  match EnumVariant.enter this (reads a) with
  | (this', EnumVariant.Await _) =>
      sameState (EnumVariant.state this') HALF_OPEN && isRejected (settles a)
  | (_, EnumVariant.Throw _) => false
  end.

Fixpoint noProbeFails (this : EnumVariant.CircuitBreaker)
    (attempts : list Attempt) : bool :=
  match attempts with
  | [] => true
  | a :: rest =>
      negb (probeFails this a)
      && noProbeFails (fst (EnumVariant.callService this a)) rest
  end.

(** The clock does not move between the entry of the call and the start
    of the probe (lines 179 and 214). *)
Definition promptProbe (a : Attempt) : Prop :=
  atProbe (reads a) = atEntry (reads a).

(** A call rejected by the breaker itself. *)
Definition rejectedByBreaker (r : Report) : Prop :=
  invocations r = 0%nat
  /\ (result r = Thrown OPEN_MESSAGE \/ result r = Thrown PROBE_LIMIT_MESSAGE).

(** The service of the call does not reject with [null] or
    [undefined]. *)
Definition readable (a : Attempt) : Prop := isNullish (settles a) = false.

(** The service of the call rejects with a reason other than [null] and
    [undefined]. *)
Definition failsWithReason (a : Attempt) : Prop := hasReason (settles a) = true.

(** All [Date.now()] reads of the synchronous part return [t0], those
    after the [await] return [t1]. *)
Definition readsAt (t0 t1 : Z) : Reads :=
  {| atEntry := t0; atGate := t0; atBlocked := t0; atProbe := t0;
     atSettle := t1; atFailure := t1 |}.

Definition failing (t0 t1 : Z) : Attempt :=
  {| settles := Rejected "Downstream service failed"%string; reads := readsAt t0 t1 |}.

Definition succeeding (t0 t1 : Z) : Attempt :=
  {| settles := Resolved "Success: Data fetched from downstream service"%string;
     reads := readsAt t0 t1 |}.

(** A call whose service rejects with [undefined]. *)
Definition nullishFailing (t0 t1 : Z) : Attempt :=
  {| settles := RejectedNullish; reads := readsAt t0 t1 |}.

(** Trip at the first failure, cool down for 10 ms, allow one probe. *)
Definition strictConfig : CircuitBreakerConfig :=
  {| failureThreshold := 1; timeout := 10; maxHalfOpenRequests := 1 |}.

(** The scenario of the specification. *)
Definition scenarioConfig : CircuitBreakerConfig :=
  {| failureThreshold := 3; timeout := 1000; maxHalfOpenRequests := 1 |}.

(** A failure that trips [strictConfig], then a probe that fails after the
    cooldown. *)
Definition tripThenFailedProbe : list Attempt :=
  [failing 100 150; failing 200 210].

(** The same, followed by a call made long after the cooldown whose
    service would succeed. *)
Definition tripProbeRetry : list Attempt :=
  tripThenFailedProbe ++ [succeeding 300 350].

(** The state-pattern breaker after [tripThenFailedProbe]. *)
Definition afterFailedProbe : StatePattern.CircuitBreaker :=
  {| StatePattern.state := StatePattern.OpenState;
     StatePattern.failureCount := 1;
     StatePattern.lastFailureTime := Some 150;
     StatePattern.config := strictConfig;
     StatePattern.responseTimes := [50; 10];
     StatePattern.halfOpenRequestCount := 1 |}.

(** An enum breaker that is [HALF_OPEN] with one probe allowed. *)
Definition halfOpenEnum : EnumVariant.CircuitBreaker :=
  {| EnumVariant.state := HALF_OPEN;
     EnumVariant.failureCount := 1;
     EnumVariant.lastFailureTime := Some 150;
     EnumVariant.config := strictConfig;
     EnumVariant.responseTimes := [50] |}.

(** A state-pattern breaker that is open since a failure at time 150. *)
Definition openSince150 : StatePattern.CircuitBreaker :=
  {| StatePattern.state := StatePattern.OpenState;
     StatePattern.failureCount := 1;
     StatePattern.lastFailureTime := Some 150;
     StatePattern.config := strictConfig;
     StatePattern.responseTimes := [50];
     StatePattern.halfOpenRequestCount := 0 |}.

Definition openSince150Enum : EnumVariant.CircuitBreaker :=
  {| EnumVariant.state := OPEN;
     EnumVariant.failureCount := 1;
     EnumVariant.lastFailureTime := Some 150;
     EnumVariant.config := strictConfig;
     EnumVariant.responseTimes := [50] |}.

(** Calls 1-3 of the scenario of the specification. *)
Definition threeFailures : list Attempt :=
  [failing 0 10; failing 500 510; failing 1000 1010].

(** [OpenState] is installed and the probe counter has reached the
    limit. *)
Definition lockedOut (ctx : StatePattern.CircuitBreaker) : Prop :=
  StatePattern.state ctx = StatePattern.OpenState
  /\ maxHalfOpenRequests (StatePattern.config ctx)
     <= StatePattern.halfOpenRequestCount ctx.

(** Later calls whose service would succeed, the last one long after the
    cooldown. *)
Definition laterCalls : list Attempt :=
  [succeeding 400 450; succeeding 405 455; succeeding 900000 900050].

(** The invariant under which the two classes move in step: the same
    view, the same configuration, and room for a probe. *)
Definition agree (ctx : StatePattern.CircuitBreaker)
    (this : EnumVariant.CircuitBreaker) : Prop :=
  viewSP ctx = viewEN this
  /\ StatePattern.config ctx = EnumVariant.config this
  /\ 1 <= maxHalfOpenRequests (StatePattern.config ctx)
  /\ StatePattern.halfOpenRequestCount ctx
     < maxHalfOpenRequests (StatePattern.config ctx).

(** The five calls of the scenario of the specification: three failures,
    a call issued at once, and a call issued a second later that
    succeeds. *)
Definition scenarioCalls : list Attempt :=
  threeFailures ++ [succeeding 1011 1200; succeeding 2010 2040].

(** The call was turned away by the probe limit of the state-pattern
    class. *)
Definition probeLimitRejection (r : Report) : bool :=
  match result r, invocations r with
  | Thrown m, O => String.eqb m PROBE_LIMIT_MESSAGE
  | _, _ => false
  end.

(** The call ended with the [TypeError] of a [catch] block: its service
    rejected with [null] or [undefined]. *)
Definition typeErrorReport (r : Report) : bool :=
  match result r with
  | ThrownTypeError => true
  | _ => false
  end.

(** Calls of a run that were neither turned away by the probe limit nor
    ended by that [TypeError]. *)
Definition sampledCalls (rs : list Report) : nat :=
  List.length
    (filter (fun r => negb (probeLimitRejection r || typeErrorReport r)) rs).

(** The synchronous part of the call reached [await service()]: the
    service has been invoked and the call is pending. *)
Definition admitted (e : StatePattern.Entered) : Prop :=
  exists this startTime, e = StatePattern.Await this startTime.

(** A state-pattern breaker caught while [HalfOpenState] is installed,
    with no probe admitted yet, and one with the single allowed probe
    pending. *)
Definition halfOpenFresh : StatePattern.CircuitBreaker :=
  {| StatePattern.state := StatePattern.HalfOpenState;
     StatePattern.failureCount := 1;
     StatePattern.lastFailureTime := Some 150;
     StatePattern.config := strictConfig;
     StatePattern.responseTimes := [50];
     StatePattern.halfOpenRequestCount := 0 |}.

Definition halfOpenSaturated : StatePattern.CircuitBreaker :=
  {| StatePattern.state := StatePattern.HalfOpenState;
     StatePattern.failureCount := 1;
     StatePattern.lastFailureTime := Some 150;
     StatePattern.config := strictConfig;
     StatePattern.responseTimes := [50];
     StatePattern.halfOpenRequestCount := 1 |}.

(** ** The driver ([src/src/index.ts])

    [runWithCircuitBreaker] (lines 17-30) builds a breaker from [config]
    and awaits thirty calls, swallowing what they throw;
    [runWithoutCircuitBreaker] (lines 33-49) times thirty direct calls of
    the service.  The service is [downstreamService.fetchData] in both
    loops; the environment of a run gives, for each iteration, what
    [fetchData] draws and what the clock reads.  The file imports
    [CircuitBreaker] from [./circuitBreaker], which either class
    provides, so the first loop is given over each of them.  The pause of
    500 ms between iterations only moves the clock, which the environment
    already decides.  [calculateAverage] divides in floating point and is
    left out. *)

Module Driver.

Definition config : CircuitBreakerConfig :=
  {| failureThreshold := 5; timeout := 3000; maxHalfOpenRequests := 2 |}.

(** What the environment decides in one call of
    [DownstreamService.fetchData] ([src/unnamed/part_000], lines 12-22):
    whether [Math.random() < this.failureRate] at line 18, and what the
    clock reads; the simulated latency of lines 14-15 only moves the
    clock. *)
Record Fetch : Type := mkFetch {
  failureDrawn : bool;
  clock : Reads
}.

(** Lines 18-21: the service of the driver rejects with an [Error] or
    resolves with a fixed text, and does nothing else. *)
Definition fetchData (f : Fetch) : Settlement :=
  if failureDrawn f
  then Rejected "Downstream service failed"%string
  else Resolved "Success: Data fetched from downstream service"%string.

Definition iterations : nat := 30.

(** [for (let i = 0; i < 30; i++)], each iteration calling
    [downstreamService.fetchData()]. *)
Definition schedule (env : nat -> Fetch) : list Attempt :=
  map (fun i => {| settles := fetchData (env i); reads := clock (env i) |})
    (seq 0 iterations).

Definition runWithCircuitBreaker_statePattern (env : nat -> Fetch)
  : option (list Z) :=
  let circuitBreaker := StatePattern.new config in
  match StatePattern.run circuitBreaker (schedule env) with
  | None => None
  | Some (circuitBreaker, _) => Some (StatePattern.getResponseTimes circuitBreaker)
  end.

Definition runWithCircuitBreaker_enum (env : nat -> Fetch) : list Z :=
  let circuitBreaker := EnumVariant.new config in
  let (circuitBreaker, _) := EnumVariant.run circuitBreaker (schedule env) in
  EnumVariant.getResponseTimes circuitBreaker.

(** The body of the second loop, lines 37-44, run on direct calls of a
    service: the content of [responseTimes] when the loop ends.  The
    [catch] block reads [.message] of the reason at line 41, so a reason
    [null] or [undefined] throws out of the loop, which is then abandoned;
    [fetchData] never rejects that way. *)
Fixpoint timeDirectCalls (responseTimes : list Z) (attempts : list Attempt)
  : list Z :=
  match attempts with
  | [] => responseTimes
  | a :: rest =>
      let startTime := atEntry (reads a) in
      match settles a with
      | RejectedNullish => responseTimes
      | _ =>
          let endTime := atSettle (reads a) in
          timeDirectCalls (responseTimes ++ [endTime - startTime]) rest
      end
  end.

Definition runWithoutCircuitBreaker (env : nat -> Fetch) : list Z :=
  timeDirectCalls [] (schedule env).

End Driver.

Definition succeeds (a : Attempt) : Prop := isRejected (settles a) = false.

(** What a call of the enum class appends to [responseTimes]: the sample
    of line 311 when the call was blocked, the sample of line 319 or 325
    when the service ran, and nothing when the service rejected with
    [null] or [undefined]. *)
Definition samplesOf (a : Attempt) (r : Report) : list Z :=
  match invocations r with
  | O => [atBlocked (reads a) - atEntry (reads a)]
  | S _ =>
      if isNullish (settles a) then []
      else [atSettle (reads a) - atEntry (reads a)]
  end.

(** The samples that calls which all reach the service leave in
    [responseTimes], measured from the entry of each call. *)
Definition entrySamples (attempts : list Attempt) : list Z :=
  map (fun a => atSettle (reads a) - atEntry (reads a))
    (filter (fun a => negb (isNullish (settles a))) attempts).

(** What the caller of a call that reached the service observes. *)
Definition reached (a : Attempt) : Report :=
  {| result := settledBy (settles a); invocations := 1 |}.

(** The gate of the open state can never be passed: [lastFailureTime] is
    [null] or [0]. *)
Definition neverCoolsDown (lastFailureTime : option Z) : Prop :=
  lastFailureTime = None \/ lastFailureTime = Some 0.

(** A call turned away by the open gate. *)
Definition blockedReport : Report :=
  {| result := Thrown OPEN_MESSAGE; invocations := 0 |}.

(** One step of a breaker shared by overlapping calls: a call starts and
    runs up to its [await], or a pending call is resumed with the
    settlement of its service. *)
Inductive SPStep : Type :=
  | SPStart (rd : Reads)
  | SPSettle (this : StatePattern.Awaiter) (startTime : Z) (s : Settlement)
      (rd : Reads).

Definition spStep (ctx : StatePattern.CircuitBreaker) (e : SPStep)
  : option StatePattern.CircuitBreaker :=
  match e with
  | SPStart rd =>
      match StatePattern.enter 2 ctx rd with
      | None => None
      | Some (ctx, _) => Some ctx
      end
  | SPSettle this startTime s rd =>
      Some (fst (StatePattern.resume this ctx startTime s rd))
  end.

Fixpoint spSteps (ctx : StatePattern.CircuitBreaker) (es : list SPStep)
  : option StatePattern.CircuitBreaker :=
  match es with
  | [] => Some ctx
  | e :: rest =>
      match spStep ctx e with
      | None => None
      | Some ctx => spSteps ctx rest
      end
  end.

Inductive ENStep : Type :=
  | ENStart (rd : Reads)
  | ENSettle (startTime : Z) (s : Settlement) (rd : Reads).

Definition enStep (this : EnumVariant.CircuitBreaker) (e : ENStep)
  : EnumVariant.CircuitBreaker :=
  match e with
  | ENStart rd => fst (EnumVariant.enter this rd)
  | ENSettle startTime s rd => fst (EnumVariant.resume this startTime s rd)
  end.

Definition enSteps (this : EnumVariant.CircuitBreaker) (es : list ENStep)
  : EnumVariant.CircuitBreaker :=
  fold_left enStep es this.

(** What holds of the state-pattern breaker between awaited calls. *)
Definition restingInvariant (cfg : CircuitBreakerConfig)
    (ctx : StatePattern.CircuitBreaker) : Prop :=
  StatePattern.config ctx = cfg
  /\ (StatePattern.failureCount ctx = 0
      <-> StatePattern.lastFailureTime ctx = None)
  /\ match StatePattern.state ctx with
     | StatePattern.ClosedState =>
         0 <= StatePattern.failureCount ctx < failureThreshold cfg
         /\ StatePattern.halfOpenRequestCount ctx = 0
     | StatePattern.OpenState =>
         StatePattern.failureCount ctx = failureThreshold cfg
     | StatePattern.HalfOpenState =>
         StatePattern.failureCount ctx = failureThreshold cfg
     end.

(** What holds of the enum breaker at every moment, also between the
    start and the settlement of overlapping calls. *)
Definition enumInvariant (cfg : CircuitBreakerConfig)
    (this : EnumVariant.CircuitBreaker) : Prop :=
  EnumVariant.config this = cfg
  /\ 0 <= EnumVariant.failureCount this
  /\ (EnumVariant.failureCount this = 0
      <-> EnumVariant.lastFailureTime this = None)
  /\ match EnumVariant.state this with
     | CLOSED => EnumVariant.failureCount this < failureThreshold cfg
     | _ => failureThreshold cfg <= EnumVariant.failureCount this
     end.

(** The probe counter stays within its budget. *)
Definition probeBudgetKept (ctx : StatePattern.CircuitBreaker) : Prop :=
  0 <= StatePattern.halfOpenRequestCount ctx
       <= maxHalfOpenRequests (StatePattern.config ctx).

(** Breakers tripped by a failure stored at the clock reading 0. *)
Definition openAtEpoch : StatePattern.CircuitBreaker :=
  {| StatePattern.state := StatePattern.OpenState;
     StatePattern.failureCount := 1;
     StatePattern.lastFailureTime := Some 0;
     StatePattern.config := strictConfig;
     StatePattern.responseTimes := [0];
     StatePattern.halfOpenRequestCount := 0 |}.

Definition openAtEpochEnum : EnumVariant.CircuitBreaker :=
  {| EnumVariant.state := OPEN;
     EnumVariant.failureCount := 1;
     EnumVariant.lastFailureTime := Some 0;
     EnumVariant.config := strictConfig;
     EnumVariant.responseTimes := [0] |}.

(** A state-pattern breaker built from the driver's configuration that a
    first probe has just closed while a second probe is still pending. *)
Definition closedWithPendingProbe : StatePattern.CircuitBreaker :=
  {| StatePattern.state := StatePattern.ClosedState;
     StatePattern.failureCount := 0;
     StatePattern.lastFailureTime := None;
     StatePattern.config := Driver.config;
     StatePattern.responseTimes := [700; 700; 700; 700; 700; 20];
     StatePattern.halfOpenRequestCount := 0 |}.

(** The streak of failures at the end of a sequence of calls that all
    reach the service, starting from a streak of [streak]: a success ends
    the streak, a rejection with a reason whose message can be read
    lengthens it, and a rejection with [null] or [undefined] leaves it as
    it is. *)
Definition streakStep (streak : Z) (a : Attempt) : Z :=
  match settles a with
  | Resolved _ => 0
  | Rejected _ => streak + 1
  | RejectedNullish => streak
  end.

Fixpoint streakAfter (streak : Z) (attempts : list Attempt) : Z :=
  match attempts with
  | [] => streak
  | a :: rest => streakAfter (streakStep streak a) rest
  end.

(** No call of the sequence completes a streak of [threshold] consecutive
    failures. *)
Fixpoint streakBelow (threshold streak : Z) (attempts : list Attempt) : bool :=
  match attempts with
  | [] => true
  | a :: rest =>
      let streak := streakStep streak a in
      (streak <? threshold) && streakBelow threshold streak rest
  end.

(** A probe for which the clock ticks between the entry of the call
    (line 179 and line 302) and the start of the probe (line 214). *)
Definition slowProbe : Attempt :=
  {| settles := Resolved "Success: Data fetched from downstream service"%string;
     reads := {| atEntry := 200; atGate := 200; atBlocked := 200;
                 atProbe := 201; atSettle := 250; atFailure := 250 |} |}.

(** A failure that trips [strictConfig], then that probe. *)
Definition tripThenSlowProbe : list Attempt := [failing 100 150; slowProbe].

(** [strictConfig] with no probe allowed. *)
Definition noProbeConfig : CircuitBreakerConfig :=
  {| failureThreshold := 1; timeout := 10; maxHalfOpenRequests := 0 |}.

(** One failure, a second call started after the cooldown and still
    pending, as steps of overlapping calls on either class. *)
Definition tripThenStartProbeEnum : list ENStep :=
  [ENStart (readsAt 100 150);
   ENSettle 100 (Rejected "Downstream service failed"%string) (readsAt 100 150);
   ENStart (readsAt 200 250)].

Definition tripThenStartProbe : list SPStep :=
  [SPStart (readsAt 100 150);
   SPSettle StatePattern.InClosedState 100
     (Rejected "Downstream service failed"%string) (readsAt 100 150);
   SPStart (readsAt 200 250)].

(** ** Basic facts about the embedding *)

Arguments cooldownElapsed : simpl never.

Ltac break_if :=
  match goal with
  | |- context [if ?b then _ else _] => destruct b eqn:?
  | H : context [if ?b then _ else _] |- _ => destruct b eqn:?
  end.

Ltac unfold_sp :=
  unfold StatePattern.callService, StatePattern.enter,
    StatePattern.OpenState_enter, StatePattern.HalfOpenState_enter,
    StatePattern.ClosedState_enter, StatePattern.resume,
    StatePattern.ClosedState_resume, StatePattern.HalfOpenState_resume,
    StatePattern.ClosedState_onSuccess, StatePattern.ClosedState_onFailure,
    StatePattern.HalfOpenState_onSuccess, StatePattern.HalfOpenState_onFailure,
    StatePattern.recordFailure, StatePattern.recordResponseTime,
    StatePattern.incrementHalfOpenRequest, StatePattern.reset,
    StatePattern.setState in *.

Ltac sp_fields :=
  cbn [StatePattern.state StatePattern.failureCount
       StatePattern.lastFailureTime StatePattern.config
       StatePattern.responseTimes StatePattern.halfOpenRequestCount
       reads settles fst snd] in *.

Ltac en_fields :=
  cbn [EnumVariant.state EnumVariant.failureCount
       EnumVariant.lastFailureTime EnumVariant.config
       EnumVariant.responseTimes reads settles fst snd sameState andb] in *.

Ltac unfold_en :=
  unfold EnumVariant.callService, EnumVariant.enter, EnumVariant.resume,
    EnumVariant.onSuccess, EnumVariant.onFailure, EnumVariant.reset,
    EnumVariant.push, EnumVariant.setState in *.

(** Two units of fuel are enough for [enter], and more change nothing:
    the re-dispatch of line 185 lands in [HalfOpenState.callService],
    which does not dispatch again. *)
Lemma enter_fuel (n : nat) (ctx : StatePattern.CircuitBreaker) (rd : Reads) :
  StatePattern.enter (2 + n) ctx rd = StatePattern.enter 2 ctx rd
  /\ exists r, StatePattern.enter 2 ctx rd = Some r.
Proof.
  destruct ctx as [st fc lft cfg rts hc]; destruct st; simpl;
    unfold StatePattern.OpenState_enter; simpl;
    try break_if; simpl; eauto.
Qed.

(** An awaited call of the state-pattern class always settles. *)
Lemma SP_callService_total (ctx : StatePattern.CircuitBreaker) (a : Attempt) :
  exists ctx' r, StatePattern.callService ctx a = Some (ctx', r).
Proof.
  unfold StatePattern.callService.
  destruct (proj2 (enter_fuel 0 ctx (reads a))) as [[c [this st | m]] E];
    rewrite E; [ | eauto ].
  destruct (StatePattern.resume this c st (settles a) (reads a)); eauto.
Qed.

Lemma SP_run_total (attempts : list Attempt) :
  forall ctx, exists ctx' rs,
    StatePattern.run ctx attempts = Some (ctx', rs)
    /\ List.length rs = List.length attempts.
Proof.
  induction attempts as [| a rest IH]; intros ctx; simpl.
  - eauto.
  - destruct (SP_callService_total ctx a) as (c & r & E); rewrite E.
    destruct (IH c) as (c' & rs & E' & L); rewrite E'.
    exists c', (r :: rs); simpl; auto.
Qed.

Lemma SP_run_app (xs ys : list Attempt) :
  forall ctx ctx' rs,
    StatePattern.run ctx xs = Some (ctx', rs) ->
    StatePattern.run ctx (xs ++ ys) =
      match StatePattern.run ctx' ys with
      | None => None
      | Some (ctx'', rs') => Some (ctx'', rs ++ rs')
      end.
Proof.
  induction xs as [| a rest IH]; intros ctx ctx' rs H; simpl in *.
  - inversion H; subst; simpl.
    destruct (StatePattern.run ctx' ys) as [[? ?] |]; reflexivity.
  - destruct (StatePattern.callService ctx a) as [[c r] |]; [ | discriminate ].
    destruct (StatePattern.run c rest) as [[c' rs0] |] eqn:E; [ | discriminate ].
    inversion H; subst.
    rewrite (IH _ _ _ E).
    destruct (StatePattern.run ctx' ys) as [[? ?] |]; reflexivity.
Qed.

(** ** Reset (lines 90-94 and 355-358) *)

(** C10.  [reset()] zeroes [failureCount], clears [lastFailureTime] and
    zeroes the probe counter [halfOpenRequestCount], and leaves the state,
    the configuration and the [responseTimes] history as they were, from
    every breaker state whatsoever.  The enum class has the same [reset]
    on the fields it has; it keeps no probe counter. *)
Theorem reset_clears_counters_only :
  (forall ctx : StatePattern.CircuitBreaker,
      StatePattern.failureCount (StatePattern.reset ctx) = 0
      /\ StatePattern.lastFailureTime (StatePattern.reset ctx) = None
      /\ StatePattern.halfOpenRequestCount (StatePattern.reset ctx) = 0
      /\ StatePattern.state (StatePattern.reset ctx) = StatePattern.state ctx
      /\ StatePattern.getState (StatePattern.reset ctx) = StatePattern.getState ctx
      /\ StatePattern.responseTimes (StatePattern.reset ctx)
         = StatePattern.responseTimes ctx
      /\ StatePattern.config (StatePattern.reset ctx) = StatePattern.config ctx)
  /\ (forall this : EnumVariant.CircuitBreaker,
      EnumVariant.failureCount (EnumVariant.reset this) = 0
      /\ EnumVariant.lastFailureTime (EnumVariant.reset this) = None
      /\ EnumVariant.state (EnumVariant.reset this) = EnumVariant.state this
      /\ EnumVariant.responseTimes (EnumVariant.reset this)
         = EnumVariant.responseTimes this
      /\ EnumVariant.config (EnumVariant.reset this) = EnumVariant.config this).
Proof.
  split; intros []; cbn; repeat split; reflexivity.
Qed.

(** ** The open gate (lines 177-191 and 304-313) *)

(** The gate of both classes lets a call through exactly when
    [lastFailureTime] is a non-zero number and the cooldown has passed. *)
Lemma cooldownElapsed_true (lft : option Z) (now tmo : Z) :
  cooldownElapsed lft now tmo = true <->
  exists t, lft = Some t /\ t <> 0 /\ tmo <= now - t.
Proof.
  unfold cooldownElapsed; destruct lft as [t |]; split.
  - intros H; apply andb_true_iff in H as [H1 H2].
    exists t; repeat split; [ | lia ].
    intros ->; discriminate.
  - intros (t' & E & N & L); inversion E; subst.
    apply andb_true_iff; split; [ | lia ].
    destruct (Z.eqb_spec t' 0); [ contradiction | reflexivity ].
  - discriminate.
  - intros (t' & E & _); discriminate.
Qed.

Lemma cooldownElapsed_early (t now tmo : Z) :
  now - t < tmo -> cooldownElapsed (Some t) now tmo = false.
Proof.
  intros H; unfold cooldownElapsed.
  apply andb_false_iff; right; lia.
Qed.

(** C9.  While the breaker is open and less than [timeout] has passed
    since [lastFailureTime], a call is rejected with the open-circuit
    error, the service is not invoked, and the state, [failureCount],
    [lastFailureTime], the probe counter and the configuration stay as
    they were; the one change is the sample [endTime - startTime] appended
    to [responseTimes].  This holds for both classes. *)
Theorem open_call_before_cooldown_is_blocked :
  (forall (ctx : StatePattern.CircuitBreaker) (a : Attempt) (t : Z),
      StatePattern.state ctx = StatePattern.OpenState ->
      StatePattern.lastFailureTime ctx = Some t ->
      atGate (reads a) - t < timeout (StatePattern.config ctx) ->
      exists ctx',
        StatePattern.callService ctx a
          = Some (ctx', {| result := Thrown OPEN_MESSAGE; invocations := 0 |})
        /\ StatePattern.state ctx' = StatePattern.OpenState
        /\ StatePattern.failureCount ctx' = StatePattern.failureCount ctx
        /\ StatePattern.lastFailureTime ctx' = StatePattern.lastFailureTime ctx
        /\ StatePattern.halfOpenRequestCount ctx'
           = StatePattern.halfOpenRequestCount ctx
        /\ StatePattern.config ctx' = StatePattern.config ctx
        /\ StatePattern.responseTimes ctx'
           = StatePattern.responseTimes ctx
               ++ [atBlocked (reads a) - atEntry (reads a)])
  /\ (forall (this : EnumVariant.CircuitBreaker) (a : Attempt) (t : Z),
      EnumVariant.state this = OPEN ->
      EnumVariant.lastFailureTime this = Some t ->
      atGate (reads a) - t < timeout (EnumVariant.config this) ->
      exists this',
        EnumVariant.callService this a
          = (this', {| result := Thrown OPEN_MESSAGE; invocations := 0 |})
        /\ EnumVariant.state this' = OPEN
        /\ EnumVariant.failureCount this' = EnumVariant.failureCount this
        /\ EnumVariant.lastFailureTime this' = EnumVariant.lastFailureTime this
        /\ EnumVariant.config this' = EnumVariant.config this
        /\ EnumVariant.responseTimes this'
           = EnumVariant.responseTimes this
               ++ [atBlocked (reads a) - atEntry (reads a)]).
Proof.
  split.
  - intros [st fc lft cfg rts hc] a t Hst Hlft Hearly; simpl in *; subst.
    unfold_sp; simpl.
    rewrite (cooldownElapsed_early _ _ _ Hearly); simpl.
    eexists; repeat split.
  - intros [st fc lft cfg rts] a t Hst Hlft Hearly; simpl in *; subst.
    unfold_en; simpl.
    rewrite (cooldownElapsed_early _ _ _ Hearly); simpl.
    eexists; repeat split.
Qed.

Lemma open_call_before_cooldown_is_blocked_witness :
  (exists ctx',
      StatePattern.callService openSince150 (succeeding 155 900)
        = Some (ctx', {| result := Thrown OPEN_MESSAGE; invocations := 0 |})
      /\ StatePattern.state ctx' = StatePattern.OpenState
      /\ StatePattern.failureCount ctx' = 1
      /\ StatePattern.lastFailureTime ctx' = Some 150
      /\ StatePattern.halfOpenRequestCount ctx' = 0
      /\ StatePattern.config ctx' = strictConfig
      /\ StatePattern.responseTimes ctx' = [50; 0])
  /\ (exists this',
      EnumVariant.callService openSince150Enum (succeeding 155 900)
        = (this', {| result := Thrown OPEN_MESSAGE; invocations := 0 |})
      /\ EnumVariant.state this' = OPEN
      /\ EnumVariant.failureCount this' = 1
      /\ EnumVariant.lastFailureTime this' = Some 150
      /\ EnumVariant.config this' = strictConfig
      /\ EnumVariant.responseTimes this' = [50; 0]).
Proof.
  split.
  - apply (proj1 open_call_before_cooldown_is_blocked
             openSince150 (succeeding 155 900) 150);
      [ reflexivity | reflexivity | simpl; lia ].
  - apply (proj2 open_call_before_cooldown_is_blocked
             openSince150Enum (succeeding 155 900) 150);
      [ reflexivity | reflexivity | simpl; lia ].
Defined.

(** ** The probe limit (lines 205-213) *)

Lemma SP_enterAll_admits (rds : list Reads) :
  forall ctx : StatePattern.CircuitBreaker,
    StatePattern.state ctx = StatePattern.HalfOpenState ->
    StatePattern.halfOpenRequestCount ctx + Z.of_nat (List.length rds)
      <= maxHalfOpenRequests (StatePattern.config ctx) ->
    exists ctx' es,
      StatePattern.enterAll ctx rds = Some (ctx', es)
      /\ Forall admitted es
      /\ List.length es = List.length rds
      /\ StatePattern.state ctx' = StatePattern.HalfOpenState
      /\ StatePattern.config ctx' = StatePattern.config ctx
      /\ StatePattern.halfOpenRequestCount ctx'
         = StatePattern.halfOpenRequestCount ctx + Z.of_nat (List.length rds).
Proof.
  induction rds as [| rd rest IH]; intros ctx Hst Hle.
  - exists ctx, []; simpl; repeat split; auto; lia.
  - destruct ctx as [st fc lft cfg rts hc]; simpl in Hst; subst st.
    cbn [List.length] in Hle; cbn [StatePattern.halfOpenRequestCount
      StatePattern.config] in Hle.
    cbn [StatePattern.enterAll StatePattern.enter StatePattern.state].
    unfold StatePattern.HalfOpenState_enter;
      cbn [StatePattern.halfOpenRequestCount StatePattern.config].
    destruct (Z.geb_spec hc (maxHalfOpenRequests cfg)) as [Hge | Hlt]; [ lia | ].
    edestruct (IH (StatePattern.incrementHalfOpenRequest
                     (StatePattern.mkCircuitBreaker
                        StatePattern.HalfOpenState fc lft cfg rts hc)))
      as (ctx' & es & E & Fa & Len & S' & C' & N').
    + reflexivity.
    + simpl; lia.
    + rewrite E. eexists; eexists; split; [ reflexivity | ].
      repeat split.
      * constructor; [ unfold admitted; eauto | exact Fa ].
      * simpl; congruence.
      * exact S'.
      * exact C'.
      * rewrite N'; cbn [List.length]; simpl; lia.
Qed.

(** The state-pattern class keeps the probe limit.  A call that finds
    [HalfOpenState] installed with
    [halfOpenRequestCount >= maxHalfOpenRequests] installs [OpenState]
    and is rejected with the probe-limit error; the service is not invoked
    and nothing else changes.  Consequently, when [maxHalfOpenRequests]
    calls have been started in [HalfOpenState] and none has settled, the
    next call is rejected in that way. *)
Theorem half_open_probe_limit_rejects :
  (forall (ctx : StatePattern.CircuitBreaker) (a : Attempt),
      StatePattern.state ctx = StatePattern.HalfOpenState ->
      maxHalfOpenRequests (StatePattern.config ctx)
        <= StatePattern.halfOpenRequestCount ctx ->
      StatePattern.callService ctx a
        = Some (StatePattern.setState ctx StatePattern.OpenState,
                {| result := Thrown PROBE_LIMIT_MESSAGE; invocations := 0 |}))
  /\ (forall (ctx : StatePattern.CircuitBreaker) (rds : list Reads) (a : Attempt),
      StatePattern.state ctx = StatePattern.HalfOpenState ->
      StatePattern.halfOpenRequestCount ctx = 0 ->
      Z.of_nat (List.length rds) = maxHalfOpenRequests (StatePattern.config ctx) ->
      exists ctx' es,
        StatePattern.enterAll ctx rds = Some (ctx', es)
        /\ Forall admitted es
        /\ List.length es = List.length rds
        /\ StatePattern.callService ctx' a
           = Some (StatePattern.setState ctx' StatePattern.OpenState,
                   {| result := Thrown PROBE_LIMIT_MESSAGE; invocations := 0 |})).
Proof.
  assert (first :
    forall (ctx : StatePattern.CircuitBreaker) (a : Attempt),
      StatePattern.state ctx = StatePattern.HalfOpenState ->
      maxHalfOpenRequests (StatePattern.config ctx)
        <= StatePattern.halfOpenRequestCount ctx ->
      StatePattern.callService ctx a
        = Some (StatePattern.setState ctx StatePattern.OpenState,
                {| result := Thrown PROBE_LIMIT_MESSAGE; invocations := 0 |})).
  { intros [st fc lft cfg rts hc] a Hst Hle; simpl in *; subst st.
    unfold StatePattern.callService; cbn [StatePattern.enter StatePattern.state].
    unfold StatePattern.HalfOpenState_enter;
      cbn [StatePattern.halfOpenRequestCount StatePattern.config].
    destruct (Z.geb_spec hc (maxHalfOpenRequests cfg)); [ reflexivity | lia ]. }
  split; [ exact first | ].
  intros ctx rds a Hst Hzero Hlen.
  destruct (SP_enterAll_admits rds ctx Hst) as (ctx' & es & E & Fa & Len & S' & C' & N');
    [ lia | ].
  exists ctx', es; repeat split; auto.
  apply first; [ exact S' | rewrite C', N'; lia ].
Qed.

Lemma half_open_probe_limit_rejects_witness :
  StatePattern.callService halfOpenSaturated (succeeding 200 250)
    = Some (StatePattern.setState halfOpenSaturated StatePattern.OpenState,
            {| result := Thrown PROBE_LIMIT_MESSAGE; invocations := 0 |})
  /\ exists ctx' es,
      StatePattern.enterAll halfOpenFresh [readsAt 200 250] = Some (ctx', es)
      /\ Forall admitted es
      /\ List.length es = 1%nat
      /\ StatePattern.callService ctx' (succeeding 201 251)
         = Some (StatePattern.setState ctx' StatePattern.OpenState,
                 {| result := Thrown PROBE_LIMIT_MESSAGE; invocations := 0 |}).
Proof.
  split.
  - apply (proj1 half_open_probe_limit_rejects halfOpenSaturated);
      [ reflexivity | simpl; lia ].
  - apply (proj2 half_open_probe_limit_rejects halfOpenFresh [readsAt 200 250]);
      reflexivity.
Defined.

(** The enum class keeps no probe counter and never reads
    [maxHalfOpenRequests]: with one probe allowed, a second call started
    while the first is pending in [HALF_OPEN] reaches the service too, and
    so does every awaited call that finds the breaker [HALF_OPEN]. *)
Lemma enum_half_open_has_no_probe_limit :
  EnumVariant.state halfOpenEnum = HALF_OPEN
  /\ maxHalfOpenRequests (EnumVariant.config halfOpenEnum) = 1
  /\ EnumVariant.enterAll halfOpenEnum [readsAt 200 250; readsAt 201 251]
     = (halfOpenEnum, [EnumVariant.Await 200; EnumVariant.Await 201])
  /\ (forall a : Attempt,
        invocations (snd (EnumVariant.callService halfOpenEnum a)) = 1%nat).
Proof.
  repeat split; try reflexivity.
  intros [[v | e |] rd]; reflexivity.
Qed.

(** C2 at the failing input.  On an enum breaker with one probe allowed,
    a failure opens the breaker and a second call, started after the
    cooldown, makes it [HALF_OPEN] and waits for the service.  A third
    call started while that probe is pending, the second half-open call
    before any resolution, is not rejected: it reaches [await service()]
    as well, for the enum class never reads [maxHalfOpenRequests], though
    its declarations document the limit (lines 254-257 and 263).  The
    state-pattern class, after the same steps, rejects the third call by
    the probe limit. *)
Theorem enum_admits_call_beyond_probe_limit :
  enSteps (EnumVariant.new strictConfig) tripThenStartProbeEnum = halfOpenEnum
  /\ EnumVariant.getState halfOpenEnum = HALF_OPEN
  /\ maxHalfOpenRequests (EnumVariant.config halfOpenEnum) = 1
  /\ EnumVariant.enter halfOpenEnum (readsAt 201 251)
     = (halfOpenEnum, EnumVariant.Await 201)
  /\ spSteps (StatePattern.new strictConfig) tripThenStartProbe
     = Some halfOpenSaturated
  /\ StatePattern.enter 2 halfOpenSaturated (readsAt 201 251)
     = Some (StatePattern.setState halfOpenSaturated StatePattern.OpenState,
             StatePattern.Throw PROBE_LIMIT_MESSAGE).
Proof.
  repeat split.
Qed.

(** ** Tripping (lines 165-171 and 342-353) *)

Lemma SP_closed_failures (attempts : list Attempt) :
  forall ctx : StatePattern.CircuitBreaker,
    StatePattern.state ctx = StatePattern.ClosedState ->
    Forall failsWithReason attempts ->
    StatePattern.failureCount ctx + Z.of_nat (List.length attempts)
      <= failureThreshold (StatePattern.config ctx) ->
    exists ctx' rs,
      StatePattern.run ctx attempts = Some (ctx', rs)
      /\ Forall (fun r => invocations r = 1%nat) rs
      /\ StatePattern.failureCount ctx'
         = StatePattern.failureCount ctx + Z.of_nat (List.length attempts)
      /\ (StatePattern.failureCount ctx + Z.of_nat (List.length attempts)
           < failureThreshold (StatePattern.config ctx) ->
          StatePattern.getState ctx' = CLOSED)
      /\ (attempts <> [] ->
          StatePattern.failureCount ctx + Z.of_nat (List.length attempts)
           = failureThreshold (StatePattern.config ctx) ->
          StatePattern.getState ctx' = OPEN).
Proof.
  induction attempts as [| a rest IH]; intros ctx Hst Hall Hle.
  - exists ctx, []; simpl; repeat split; auto; try lia.
    + intros _; unfold StatePattern.getState; rewrite Hst; reflexivity.
    + intros N; contradiction.
  - inversion Hall as [| ? ? Hfail Hrest]; subst.
    destruct ctx as [st fc lft cfg rts hc]; simpl in Hst; subst st.
    destruct a as [[v | e |] rd]; [ discriminate Hfail | | discriminate Hfail ].
    cbn [List.length StatePattern.failureCount StatePattern.config] in *.
    cbn [StatePattern.run]. unfold StatePattern.callService.
    cbn [StatePattern.enter StatePattern.state StatePattern.ClosedState_enter
         reads settles StatePattern.resume StatePattern.ClosedState_resume].
    unfold StatePattern.ClosedState_onFailure.
    cbn [StatePattern.recordFailure StatePattern.recordResponseTime
         StatePattern.failureCount StatePattern.config StatePattern.state
         StatePattern.lastFailureTime StatePattern.responseTimes
         StatePattern.halfOpenRequestCount].
    destruct (Z.geb_spec (fc + 1) (failureThreshold cfg)) as [Hge | Hlt].
    + (* the threshold is reached: this was the last failure *)
      destruct rest as [| b rest']; [ | cbn [List.length] in Hle; lia ].
      cbn [StatePattern.run StatePattern.setState]. eexists; eexists.
      split; [ reflexivity | ].
      cbn [List.length StatePattern.failureCount] in *.
      repeat split; try (constructor; auto); try lia.
    + edestruct (IH (StatePattern.mkCircuitBreaker StatePattern.ClosedState
                       (fc + 1) (Some (atFailure rd)) cfg
                       (rts ++ [atSettle rd - atEntry rd]) hc))
        as (ctx' & rs & E & Inv & Fc & Cl & Op); [ reflexivity | exact Hrest | | ].
      * cbn [StatePattern.failureCount StatePattern.config]. lia.
      * unfold StatePattern.recordFailure, StatePattern.recordResponseTime.
        sp_fields. rewrite E. eexists; eexists. split; [ reflexivity | ].
        cbn [StatePattern.failureCount StatePattern.config] in *.
        repeat split.
        -- constructor; [ reflexivity | exact Inv ].
        -- lia.
        -- intros H; apply Cl; lia.
        -- intros _ H. apply Op; [ | lia ].
           intros ->. cbn [List.length] in *. lia.
Qed.

Lemma EN_closed_failures (attempts : list Attempt) :
  forall this : EnumVariant.CircuitBreaker,
    EnumVariant.state this = CLOSED ->
    Forall failsWithReason attempts ->
    EnumVariant.failureCount this + Z.of_nat (List.length attempts)
      <= failureThreshold (EnumVariant.config this) ->
    Forall (fun r => invocations r = 1%nat) (snd (EnumVariant.run this attempts))
    /\ EnumVariant.failureCount (fst (EnumVariant.run this attempts))
       = EnumVariant.failureCount this + Z.of_nat (List.length attempts)
    /\ (EnumVariant.failureCount this + Z.of_nat (List.length attempts)
         < failureThreshold (EnumVariant.config this) ->
        EnumVariant.getState (fst (EnumVariant.run this attempts)) = CLOSED)
    /\ (attempts <> [] ->
        EnumVariant.failureCount this + Z.of_nat (List.length attempts)
         = failureThreshold (EnumVariant.config this) ->
        EnumVariant.getState (fst (EnumVariant.run this attempts)) = OPEN).
Proof.
  induction attempts as [| a rest IH]; intros this Hst Hall Hle.
  - simpl; repeat split; auto; try lia. intros N; contradiction.
  - inversion Hall as [| ? ? Hfail Hrest]; subst.
    destruct this as [st fc lft cfg rts]; simpl in Hst; subst st.
    destruct a as [[v | e |] rd]; [ discriminate Hfail | | discriminate Hfail ].
    cbn [List.length EnumVariant.failureCount EnumVariant.config] in *.
    cbn [EnumVariant.run]. unfold EnumVariant.callService.
    unfold EnumVariant.enter.
    cbn [EnumVariant.state sameState reads settles EnumVariant.resume].
    unfold EnumVariant.onFailure.
    cbn [EnumVariant.push EnumVariant.failureCount EnumVariant.config
         EnumVariant.state EnumVariant.lastFailureTime
         EnumVariant.responseTimes sameState andb].
    destruct (Z.geb_spec (fc + 1) (failureThreshold cfg)) as [Hge | Hlt].
    + destruct rest as [| b rest']; [ | cbn [List.length] in Hle; lia ].
      cbn. repeat split; try (constructor; auto); try lia.
    + specialize (IH (EnumVariant.mkCircuitBreaker CLOSED
                       (fc + 1) (Some (atFailure rd)) cfg
                       (rts ++ [atSettle rd - atEntry rd]))
                     eq_refl Hrest).
      cbn [EnumVariant.failureCount EnumVariant.config] in IH.
      destruct IH as (Inv & Fc & Cl & Op); [ lia | ].
      destruct (EnumVariant.run _ rest) as [this' rs] eqn:E.
      cbn [fst snd] in *.
      repeat split.
      * constructor; [ reflexivity | exact Inv ].
      * lia.
      * intros H; apply Cl; lia.
      * intros _ H. apply Op; [ | lia ].
        intros ->. cbn [List.length] in *. lia.
Qed.

Lemma Forall_fails_firstn (k : nat) (attempts : list Attempt) :
  Forall failsWithReason attempts -> Forall failsWithReason (firstn k attempts).
Proof.
  intros H; revert k; induction H as [| a rest Ha Hrest IH]; intros [| k];
    simpl; constructor; auto.
Qed.

(** Where the threshold works.  From the closed state with
    [failureCount = 0] and a threshold of at least one, a run of
    consecutive service failures whose reasons are not [null] or
    [undefined], no longer than the threshold, invokes the service every
    time, leaves the breaker closed as long as fewer than
    [failureThreshold] failures have happened, and ends
    with the breaker open when the run has exactly [failureThreshold]
    failures; every shorter prefix of the run ends closed, so the change
    to open happens once, at the last failure.  Both classes. *)
Theorem consecutive_failures_trip_at_threshold :
  (forall (ctx : StatePattern.CircuitBreaker) (attempts : list Attempt),
      StatePattern.state ctx = StatePattern.ClosedState ->
      StatePattern.failureCount ctx = 0 ->
      1 <= failureThreshold (StatePattern.config ctx) ->
      Forall failsWithReason attempts ->
      Z.of_nat (List.length attempts) <= failureThreshold (StatePattern.config ctx) ->
      (exists ctx' rs,
          StatePattern.run ctx attempts = Some (ctx', rs)
          /\ Forall (fun r => invocations r = 1%nat) rs
          /\ StatePattern.getState ctx'
             = if Z.of_nat (List.length attempts)
                  <? failureThreshold (StatePattern.config ctx)
               then CLOSED else OPEN)
      /\ (forall k : nat,
          (k < List.length attempts)%nat ->
          exists ctx' rs,
            StatePattern.run ctx (firstn k attempts) = Some (ctx', rs)
            /\ StatePattern.getState ctx' = CLOSED))
  /\ (forall (this : EnumVariant.CircuitBreaker) (attempts : list Attempt),
      EnumVariant.state this = CLOSED ->
      EnumVariant.failureCount this = 0 ->
      1 <= failureThreshold (EnumVariant.config this) ->
      Forall failsWithReason attempts ->
      Z.of_nat (List.length attempts) <= failureThreshold (EnumVariant.config this) ->
      Forall (fun r => invocations r = 1%nat) (snd (EnumVariant.run this attempts))
      /\ EnumVariant.getState (fst (EnumVariant.run this attempts))
         = (if Z.of_nat (List.length attempts)
               <? failureThreshold (EnumVariant.config this)
            then CLOSED else OPEN)
      /\ (forall k : nat,
          (k < List.length attempts)%nat ->
          EnumVariant.getState (fst (EnumVariant.run this (firstn k attempts)))
          = CLOSED)).
Proof.
  split.
  - intros ctx attempts Hst Hfc Hthr Hall Hlen. split.
    + destruct (SP_closed_failures attempts ctx Hst Hall)
        as (ctx' & rs & E & Inv & _ & Cl & Op); [ lia | ].
      exists ctx', rs. repeat split; auto.
      destruct (Z.ltb_spec (Z.of_nat (List.length attempts))
                  (failureThreshold (StatePattern.config ctx))).
      * apply Cl; lia.
      * apply Op; [ | lia ]. intros ->; simpl in *; lia.
    + intros k Hk.
      assert (L : List.length (firstn k attempts) = k)
        by (rewrite length_firstn; lia).
      destruct (SP_closed_failures (firstn k attempts) ctx Hst
                  (Forall_fails_firstn k attempts Hall))
        as (ctx' & rs & E & _ & _ & Cl & _); [ lia | ].
      exists ctx', rs; split; [ exact E | apply Cl; lia ].
  - intros this attempts Hst Hfc Hthr Hall Hlen.
    destruct (EN_closed_failures attempts this Hst Hall)
      as (Inv & _ & Cl & Op); [ lia | ].
    repeat split; auto.
    + destruct (Z.ltb_spec (Z.of_nat (List.length attempts))
                  (failureThreshold (EnumVariant.config this))).
      * apply Cl; lia.
      * apply Op; [ | lia ]. intros ->; simpl in *; lia.
    + intros k Hk.
      assert (L : List.length (firstn k attempts) = k)
        by (rewrite length_firstn; lia).
      destruct (EN_closed_failures (firstn k attempts) this Hst
                  (Forall_fails_firstn k attempts Hall))
        as (_ & _ & Cl' & _); [ lia | ].
      apply Cl'; lia.
Qed.

Lemma consecutive_failures_trip_at_threshold_witness :
  ((exists ctx' rs,
       StatePattern.run (StatePattern.new scenarioConfig) threeFailures
         = Some (ctx', rs)
       /\ Forall (fun r => invocations r = 1%nat) rs
       /\ StatePattern.getState ctx' = OPEN)
   /\ (forall k : nat,
         (k < 3)%nat ->
         exists ctx' rs,
           StatePattern.run (StatePattern.new scenarioConfig)
             (firstn k threeFailures) = Some (ctx', rs)
           /\ StatePattern.getState ctx' = CLOSED))
  /\ (Forall (fun r => invocations r = 1%nat)
        (snd (EnumVariant.run (EnumVariant.new scenarioConfig) threeFailures))
      /\ EnumVariant.getState
           (fst (EnumVariant.run (EnumVariant.new scenarioConfig) threeFailures))
         = OPEN
      /\ (forall k : nat,
            (k < 3)%nat ->
            EnumVariant.getState
              (fst (EnumVariant.run (EnumVariant.new scenarioConfig)
                      (firstn k threeFailures)))
            = CLOSED)).
Proof.
  split.
  - apply (proj1 consecutive_failures_trip_at_threshold
             (StatePattern.new scenarioConfig) threeFailures);
      [ reflexivity | reflexivity | simpl; lia
      | repeat constructor | simpl; lia ].
  - apply (proj2 consecutive_failures_trip_at_threshold
             (EnumVariant.new scenarioConfig) threeFailures);
      [ reflexivity | reflexivity | simpl; lia
      | repeat constructor | simpl; lia ].
Defined.

(** A closed breaker of either class takes no notice of failures whose
    reason is [null] or [undefined], however many there are. *)
Lemma nullish_failures_leave_closed_breaker_untouched
    (attempts : list Attempt) :
  Forall (fun a => settles a = RejectedNullish) attempts ->
  (forall ctx : StatePattern.CircuitBreaker,
      StatePattern.state ctx = StatePattern.ClosedState ->
      StatePattern.run ctx attempts = Some (ctx, map reached attempts))
  /\ (forall this : EnumVariant.CircuitBreaker,
      EnumVariant.state this = CLOSED ->
      EnumVariant.run this attempts = (this, map reached attempts)).
Proof.
  induction 1 as [| a rest Ha Hrest [IHs IHe]]; split; intros c Hc;
    try reflexivity.
  - destruct c as [st fc lft cfg rts hc]; destruct a as [s rd];
      simpl in Hc, Ha; subst st s.
    cbn [StatePattern.run map]. unfold_sp; sp_fields.
    rewrite (IHs (StatePattern.mkCircuitBreaker StatePattern.ClosedState fc
                    lft cfg rts hc) eq_refl).
    reflexivity.
  - destruct c as [st fc lft cfg rts]; destruct a as [s rd];
      simpl in Hc, Ha; subst st s.
    cbn [EnumVariant.run map]. unfold_en; en_fields.
    rewrite (IHe (EnumVariant.mkCircuitBreaker CLOSED fc lft cfg rts) eq_refl).
    reflexivity.
Qed.

(** C8 at the failing input.  With a threshold of one failure, a call
    whose service rejects with [undefined] is one failure of the
    operation, yet the breaker of either class stays closed with
    [failureCount = 0] and no sample: the [catch] block reads
    [(error as Error).message] first (lines 153 and 323), that read
    throws a [TypeError], and [recordResponseTime], [onFailure] and the
    re-throw of lines 154-157 and 324-327 never run.  Three such failures
    in a row do not open the breaker of the scenario either, while three
    failures with an [Error] do. *)
Theorem nullish_failure_is_not_counted :
  failureThreshold strictConfig = 1
  /\ StatePattern.run (StatePattern.new strictConfig) [nullishFailing 100 150]
     = Some (StatePattern.new strictConfig,
             [{| result := ThrownTypeError; invocations := 1 |}])
  /\ EnumVariant.run (EnumVariant.new strictConfig) [nullishFailing 100 150]
     = (EnumVariant.new strictConfig,
        [{| result := ThrownTypeError; invocations := 1 |}])
  /\ failureThreshold scenarioConfig = 3
  /\ (exists rs,
        StatePattern.run (StatePattern.new scenarioConfig)
          [nullishFailing 0 10; nullishFailing 500 510;
           nullishFailing 1000 1010]
        = Some (StatePattern.new scenarioConfig, rs))
  /\ fst (EnumVariant.run (EnumVariant.new scenarioConfig)
            [nullishFailing 0 10; nullishFailing 500 510;
             nullishFailing 1000 1010])
     = EnumVariant.new scenarioConfig
  /\ (exists ctx rs,
        StatePattern.run (StatePattern.new scenarioConfig) threeFailures
          = Some (ctx, rs)
        /\ StatePattern.getState ctx = OPEN)
  /\ EnumVariant.getState
       (fst (EnumVariant.run (EnumVariant.new scenarioConfig) threeFailures))
     = OPEN.
Proof.
  repeat split; try reflexivity.
  - eexists; reflexivity.
  - eexists; eexists; split; reflexivity.
Qed.

(** ** After a probe-limit rejection (state-pattern class) *)

Lemma SP_probe_rejection_locks (ctx ctx' : StatePattern.CircuitBreaker)
    (a : Attempt) :
  StatePattern.callService ctx a
    = Some (ctx', {| result := Thrown PROBE_LIMIT_MESSAGE; invocations := 0 |}) ->
  lockedOut ctx'.
Proof.
  destruct ctx as [st fc lft cfg rts hc]; destruct a as [[v | e |] rd];
    destruct st; unfold_sp; sp_fields;
    repeat (break_if; sp_fields); intros H; inversion H; subst;
    try discriminate; unfold lockedOut; sp_fields; split; try reflexivity; lia.
Qed.

Lemma SP_locked_call (ctx : StatePattern.CircuitBreaker) (a : Attempt) :
  lockedOut ctx ->
  exists ctx' r,
    StatePattern.callService ctx a = Some (ctx', r)
    /\ lockedOut ctx' /\ rejectedByBreaker r.
Proof.
  destruct ctx as [st fc lft cfg rts hc]; intros [Hst Hmax];
    sp_fields; subst st.
  unfold_sp; sp_fields.
  destruct (cooldownElapsed lft (atGate (reads a)) (timeout cfg)); sp_fields.
  - destruct (Z.geb_spec hc (maxHalfOpenRequests cfg)); [ | lia ].
    eexists; eexists; split; [ reflexivity | ].
    unfold lockedOut, rejectedByBreaker; simpl; auto.
  - eexists; eexists; split; [ reflexivity | ].
    unfold lockedOut, rejectedByBreaker; simpl; auto.
Qed.

Lemma SP_locked_run (attempts : list Attempt) :
  forall ctx : StatePattern.CircuitBreaker,
    lockedOut ctx ->
    exists ctx' rs,
      StatePattern.run ctx attempts = Some (ctx', rs)
      /\ lockedOut ctx'
      /\ List.length rs = List.length attempts
      /\ Forall rejectedByBreaker rs.
Proof.
  induction attempts as [| a rest IH]; intros ctx L.
  - exists ctx, []; simpl; auto.
  - destruct (SP_locked_call ctx a L) as (c & r & E & L' & R).
    destruct (IH c L') as (c' & rs & E' & L'' & Len & Rs).
    exists c', (r :: rs); simpl; rewrite E, E'; auto.
Qed.

(** C5, amended.  In the state-pattern class, once a call has been
    rejected by the probe limit, and provided no earlier call is still
    waiting for the service, every later call of a loop of awaited calls
    is rejected by the breaker, with the open-circuit error or the
    probe-limit error, and the service is never invoked again: the
    rejection leaves [OpenState] installed with the counter at the limit,
    re-entering [HalfOpenState] does not touch the counter, and only a
    successful call would clear it. *)
Theorem probe_limit_rejection_is_permanent
    (ctx ctx' : StatePattern.CircuitBreaker) (a : Attempt)
    (attempts : list Attempt) :
  StatePattern.callService ctx a
    = Some (ctx', {| result := Thrown PROBE_LIMIT_MESSAGE; invocations := 0 |}) ->
  exists ctx'' rs,
    StatePattern.run ctx' attempts = Some (ctx'', rs)
    /\ List.length rs = List.length attempts
    /\ Forall rejectedByBreaker rs
    /\ StatePattern.getState ctx'' = OPEN.
Proof.
  intros H. apply SP_probe_rejection_locks in H.
  destruct (SP_locked_run attempts ctx' H) as (c & rs & E & [St _] & Len & Rs).
  exists c, rs; repeat split; auto.
  unfold StatePattern.getState; rewrite St; reflexivity.
Qed.

(** C5 fails when a probe is still pending at the time of the rejection.
    With one probe allowed, a first call finds the cooldown over, installs
    [HalfOpenState], takes the slot and waits for the service; a second
    call is rejected by the probe limit and installs [OpenState]; the
    first call then succeeds, and [HalfOpenState.onSuccess] installs
    [ClosedState] and resets the counter; the next call runs the
    service. *)
Lemma pending_probe_reopens_after_rejection :
  exists ctx1 ctx2 ctx3 ctx4 r,
    StatePattern.enter 2 openSince150 (reads (succeeding 300 320))
      = Some (ctx1, StatePattern.Await StatePattern.InHalfOpenState 300)
    /\ StatePattern.callService ctx1 (succeeding 301 302)
       = Some (ctx2, {| result := Thrown PROBE_LIMIT_MESSAGE; invocations := 0 |})
    /\ StatePattern.resume StatePattern.InHalfOpenState ctx2 300
         (settles (succeeding 300 320)) (reads (succeeding 300 320))
       = (ctx3, settledBy (settles (succeeding 300 320)))
    /\ StatePattern.getState ctx3 = CLOSED
    /\ StatePattern.callService ctx3 (succeeding 400 450) = Some (ctx4, r)
    /\ invocations r = 1%nat
    /\ ~ rejectedByBreaker r.
Proof.
  do 5 eexists.
  split; [ vm_compute; reflexivity | ].
  split; [ vm_compute; reflexivity | ].
  split; [ vm_compute; reflexivity | ].
  split; [ reflexivity | ].
  split; [ vm_compute; reflexivity | ].
  split; [ reflexivity | ].
  intros [I _]; discriminate I.
Qed.

Lemma probe_limit_rejection_is_permanent_witness :
  exists ctx'' rs,
    StatePattern.run afterFailedProbe laterCalls = Some (ctx'', rs)
    /\ List.length rs = 3%nat
    /\ Forall rejectedByBreaker rs
    /\ StatePattern.getState ctx'' = OPEN.
Proof.
  apply (probe_limit_rejection_is_permanent
           afterFailedProbe afterFailedProbe (succeeding 300 350) laterCalls).
  reflexivity.
Defined.

(** ** The two classes side by side *)

Lemma agree_call (ctx : StatePattern.CircuitBreaker)
    (this : EnumVariant.CircuitBreaker) (a : Attempt) :
  agree ctx this ->
  promptProbe a ->
  probeFails this a = false ->
  exists ctx',
    StatePattern.callService ctx a
      = Some (ctx', snd (EnumVariant.callService this a))
    /\ agree ctx' (fst (EnumVariant.callService this a)).
Proof.
  destruct ctx as [st fc lft cfg rts hc].
  destruct this as [st' fc' lft' cfg' rts'].
  destruct a as [s rd].
  unfold agree, promptProbe, probeFails, viewSP, viewEN,
    StatePattern.getState, StatePattern.getResponseTimes,
    EnumVariant.getState, EnumVariant.getResponseTimes.
  sp_fields; en_fields.
  intros (V & C & M1 & M) P F.
  inversion V; subst; clear V.
  destruct st; sp_fields.
  - (* closed *)
    destruct s as [v | e |]; unfold_sp; unfold_en; sp_fields; en_fields.
    + eexists; split; [ reflexivity | ]. cbn; repeat split; auto. lia.
    + destruct (Z.geb_spec (fc' + 1) (failureThreshold cfg')); sp_fields;
        en_fields; (eexists; split; [ reflexivity | ]);
        cbn; repeat split; auto.
    + eexists; split; [ reflexivity | ]. cbn; repeat split; auto.
  - (* open *)
    unfold EnumVariant.enter in F.
    unfold_sp; unfold_en; sp_fields; en_fields.
    destruct (cooldownElapsed lft' (atGate rd) (timeout cfg')); sp_fields;
      en_fields.
    + destruct (Z.geb_spec hc (maxHalfOpenRequests cfg')); [ lia | ].
      destruct s as [v | e |]; [ | discriminate F | discriminate F ].
      sp_fields; en_fields. rewrite P.
      eexists; split; [ reflexivity | ]. cbn; repeat split; auto. lia.
    + eexists; split; [ reflexivity | ]. cbn; repeat split; auto.
  - (* half-open *)
    unfold EnumVariant.enter in F.
    unfold_sp; unfold_en; sp_fields; en_fields.
    destruct (Z.geb_spec hc (maxHalfOpenRequests cfg')); [ lia | ].
    destruct s as [v | e |]; [ | discriminate F | discriminate F ].
    sp_fields; en_fields. rewrite P.
    eexists; split; [ reflexivity | ]. cbn; repeat split; auto. lia.
Qed.

Lemma agree_run (attempts : list Attempt) :
  forall (ctx : StatePattern.CircuitBreaker) (this : EnumVariant.CircuitBreaker),
    agree ctx this ->
    Forall promptProbe attempts ->
    noProbeFails this attempts = true ->
    exists ctx',
      StatePattern.run ctx attempts
        = Some (ctx', snd (EnumVariant.run this attempts))
      /\ agree ctx' (fst (EnumVariant.run this attempts)).
Proof.
  induction attempts as [| a rest IH]; intros ctx this A P N.
  - exists ctx; simpl; auto.
  - inversion P as [| ? ? Pa Prest]; subst.
    cbn [noProbeFails] in N. apply andb_true_iff in N as [Na Nrest].
    apply negb_true_iff in Na.
    destruct (agree_call ctx this a A Pa Na) as (c & E & A').
    cbn [StatePattern.run EnumVariant.run]. rewrite E.
    destruct (EnumVariant.callService this a) as [this1 r] eqn:E1.
    cbn [fst snd] in *.
    destruct (IH c this1 A' Prest Nrest) as (c' & E' & A'').
    rewrite E'.
    destruct (EnumVariant.run this1 rest) as [this2 rs] eqn:E2.
    cbn [fst snd] in *.
    exists c'; auto.
Qed.

(** After a failed probe the classes part ways.  With a threshold of one
    failure and one probe allowed, after a failure that trips the breaker
    and a probe that fails,
    the state-pattern class still holds [failureCount = 1] and the time of
    the first failure and rejects the third call by the probe limit, while
    the enum class has counted both failures, waits from the second one,
    and lets the third call through. *)
Lemma classes_differ_after_failed_probe :
  ~ equivalentOn strictConfig tripProbeRetry
  /\ ~ equivalentOn strictConfig tripThenFailedProbe.
Proof.
  split; intros (ctx & rs & E & R & V); vm_compute in E;
    injection E as Ec Er.
  - rewrite R in Er; vm_compute in Er; discriminate Er.
  - rewrite <- Ec in V; vm_compute in V; discriminate V.
Qed.

(** C1 fails as stated, by design: the state-pattern class takes the
    start time of a probe in [HalfOpenState.callService] (line 214), after
    the gate of [OpenState.callService] has run, while the enum class
    takes it once, at the entry of the call (line 302).  When the clock
    ticks in between, a successful probe leaves the sample 49 in one
    class and 50 in the other; no probe fails and one probe is allowed. *)
Lemma classes_differ_in_probe_sample :
  1 <= maxHalfOpenRequests strictConfig
  /\ noProbeFails (EnumVariant.new strictConfig) tripThenSlowProbe = true
  /\ ~ equivalentOn strictConfig tripThenSlowProbe.
Proof.
  split; [ simpl; lia | split; [ reflexivity | ] ].
  intros (ctx & rs & E & R & V); vm_compute in E; injection E as Ec Er.
  rewrite <- Ec in V; vm_compute in V; discriminate V.
Qed.

(** With no probe allowed the classes part ways at the first call after
    the cooldown: the state-pattern class rejects it by the probe limit,
    the enum class, which never reads the limit, runs the service. *)
Lemma classes_differ_without_probe_budget :
  Forall promptProbe [failing 100 150; succeeding 200 250]
  /\ noProbeFails (EnumVariant.new noProbeConfig)
       [failing 100 150; succeeding 200 250] = true
  /\ ~ equivalentOn noProbeConfig [failing 100 150; succeeding 200 250].
Proof.
  split; [ repeat constructor | split; [ reflexivity | ] ].
  intros (ctx & rs & E & R & V); vm_compute in E; injection E as Ec Er.
  rewrite R in Er; vm_compute in Er; discriminate Er.
Qed.

(** C1, amended.  For every configuration that allows at least one probe
    and every loop of awaited calls in which no call that runs the service
    in the half-open state fails, and in which the clock reads the same at
    the entry of a call and at the start of its probe, the two classes
    built from that configuration return the same results, invoke the
    service on the same calls, and end with the same state,
    [failureCount], [lastFailureTime] and [responseTimes]. *)
Theorem classes_agree_without_failed_probe
    (cfg : CircuitBreakerConfig) (attempts : list Attempt) :
  1 <= maxHalfOpenRequests cfg ->
  Forall promptProbe attempts ->
  noProbeFails (EnumVariant.new cfg) attempts = true ->
  equivalentOn cfg attempts.
Proof.
  intros M P N.
  destruct (agree_run attempts (StatePattern.new cfg) (EnumVariant.new cfg))
    as (ctx & E & A); auto.
  - unfold agree; cbn; repeat split; auto; lia.
  - exists ctx, (snd (EnumVariant.run (EnumVariant.new cfg) attempts)).
    repeat split; auto. apply A.
Qed.

Lemma classes_agree_without_failed_probe_witness :
  equivalentOn scenarioConfig scenarioCalls.
Proof.
  apply (classes_agree_without_failed_probe scenarioConfig scenarioCalls).
  - simpl; lia.
  - repeat constructor.
  - vm_compute; reflexivity.
Defined.

(** ** The response-time history *)

(** In the enum class every awaited call whose service does not reject
    with [null] or [undefined] appends one sample. *)
Lemma EN_call_appends_one_sample (this : EnumVariant.CircuitBreaker)
    (a : Attempt) :
  readable a ->
  exists sample,
    EnumVariant.responseTimes (fst (EnumVariant.callService this a))
    = EnumVariant.responseTimes this ++ [sample].
Proof.
  destruct this as [st fc lft cfg rts]; destruct a as [[v | e |] rd];
    intros R; try discriminate R;
    destruct st; unfold_en; en_fields;
    repeat (break_if; en_fields); eexists; reflexivity.
Qed.

Lemma EN_run_samples (attempts : list Attempt) :
  forall this : EnumVariant.CircuitBreaker,
    Forall readable attempts ->
    List.length (EnumVariant.getResponseTimes (fst (EnumVariant.run this attempts)))
    = (List.length (EnumVariant.getResponseTimes this)
       + List.length attempts)%nat.
Proof.
  unfold EnumVariant.getResponseTimes.
  induction attempts as [| a rest IH]; intros this F; simpl.
  - lia.
  - inversion F as [| ? ? Fa Frest]; subst.
    destruct (EN_call_appends_one_sample this a Fa) as [x Hx].
    destruct (EnumVariant.callService this a) as [this1 r]; simpl in Hx.
    specialize (IH this1 Frest).
    destruct (EnumVariant.run this1 rest) as [this2 rs]; simpl in *.
    rewrite IH, Hx, length_app; simpl; lia.
Qed.

(** In the state-pattern class a call appends one sample, unless it is
    turned away by the probe limit or its service rejects with [null] or
    [undefined]: then it appends none. *)
Lemma SP_call_samples (ctx ctx' : StatePattern.CircuitBreaker) (a : Attempt)
    (r : Report) :
  StatePattern.callService ctx a = Some (ctx', r) ->
  if probeLimitRejection r || typeErrorReport r
  then StatePattern.responseTimes ctx' = StatePattern.responseTimes ctx
  else exists sample,
      StatePattern.responseTimes ctx' = StatePattern.responseTimes ctx ++ [sample].
Proof.
  destruct ctx as [st fc lft cfg rts hc]; destruct a as [[v | e |] rd];
    destruct st; intros H; unfold_sp; sp_fields;
    repeat (match type of H with
            | context [if ?b then _ else _] => destruct b eqn:?
            end; sp_fields);
    inversion H; subst; cbn; try reflexivity; eexists; reflexivity.
Qed.

Lemma SP_run_samples (attempts : list Attempt) :
  forall (ctx ctx' : StatePattern.CircuitBreaker) (rs : list Report),
    StatePattern.run ctx attempts = Some (ctx', rs) ->
    List.length (StatePattern.getResponseTimes ctx')
    = (List.length (StatePattern.getResponseTimes ctx) + sampledCalls rs)%nat.
Proof.
  unfold StatePattern.getResponseTimes, sampledCalls.
  induction attempts as [| a rest IH]; intros ctx ctx' rs H; simpl in H.
  - inversion H; subst; simpl; lia.
  - destruct (StatePattern.callService ctx a) as [[c r] |] eqn:E;
      [ | discriminate ].
    destruct (StatePattern.run c rest) as [[c' rs0] |] eqn:E'; [ | discriminate ].
    inversion H; subst. rewrite (IH _ _ _ E').
    apply SP_call_samples in E. simpl.
    destruct (probeLimitRejection r || typeErrorReport r); simpl.
    + rewrite E; reflexivity.
    + destruct E as [x ->]. rewrite length_app; simpl; lia.
Qed.

(** C3 at the failing input.  With [strictConfig], a failure, a failed
    probe and a third call give three call attempts and two samples: the
    third call is turned away at line 210 of [HalfOpenState.callService],
    which throws without calling [recordResponseTime], although the
    blocked branch of [OpenState.callService] (lines 187-188) records a
    sample before it throws. *)
Theorem probe_limit_rejection_records_no_sample :
  exists ctx rs,
    StatePattern.run (StatePattern.new strictConfig) tripProbeRetry
      = Some (ctx, rs)
    /\ List.length tripProbeRetry = 3%nat
    /\ List.length rs = 3%nat
    /\ nth 2 rs {| result := Returned EmptyString; invocations := 1 |}
       = {| result := Thrown PROBE_LIMIT_MESSAGE; invocations := 0 |}
    /\ StatePattern.getResponseTimes ctx = [50; 10]
    /\ List.length (StatePattern.getResponseTimes ctx) = 2%nat.
Proof.
  eexists; eexists; split; [ vm_compute; reflexivity | ].
  repeat split.
Qed.

(** ** The probe counter across states (state-pattern class) *)

(** Line 184 installs [HalfOpenState] and hands the call back to the
    context; the counter is not touched on the way. *)
Lemma SP_open_entry_keeps_probe_count
    (k : StatePattern.CircuitBreaker -> Reads
         -> option (StatePattern.CircuitBreaker * StatePattern.Entered))
    (ctx : StatePattern.CircuitBreaker) (rd : Reads) :
  cooldownElapsed (StatePattern.lastFailureTime ctx) (atGate rd)
    (timeout (StatePattern.config ctx)) = true ->
  StatePattern.OpenState_enter k ctx rd
    = k (StatePattern.setState ctx StatePattern.HalfOpenState) rd
  /\ StatePattern.halfOpenRequestCount
       (StatePattern.setState ctx StatePattern.HalfOpenState)
     = StatePattern.halfOpenRequestCount ctx.
Proof.
  intros H; unfold StatePattern.OpenState_enter; rewrite H; split; reflexivity.
Qed.

(** A call that leaves the breaker closed after finding it open or
    half-open leaves the counter at 0, and so does every successful call
    that finds it closed. *)
Lemma SP_closing_resets_probe_count (ctx ctx' : StatePattern.CircuitBreaker)
    (a : Attempt) (r : Report) :
  StatePattern.callService ctx a = Some (ctx', r) ->
  StatePattern.state ctx' = StatePattern.ClosedState ->
  StatePattern.state ctx <> StatePattern.ClosedState
  \/ isRejected (settles a) = false ->
  StatePattern.halfOpenRequestCount ctx' = 0.
Proof.
  destruct ctx as [st fc lft cfg rts hc]; destruct a as [[v | e |] rd];
    destruct st; intros H; unfold_sp; sp_fields;
    repeat (match type of H with
            | context [if ?b then _ else _] => destruct b eqn:?
            end; sp_fields);
    inversion H; subst; cbn; intros S [N | N];
    try reflexivity; try discriminate; try congruence.
Qed.

(** C4 at the failing input.  After a failure that trips [strictConfig]
    and a failed probe the counter is 1; the next call made after the
    cooldown installs [HalfOpenState] at line 184 and re-dispatches with
    the counter still at 1, not 0, whatever the dispatcher does next. *)
Theorem half_open_entry_keeps_stale_probe_count :
  (exists rs,
      StatePattern.run (StatePattern.new strictConfig) tripThenFailedProbe
      = Some (afterFailedProbe, rs))
  /\ forall k,
      StatePattern.OpenState_enter k afterFailedProbe (readsAt 300 350)
      = k (StatePattern.setState afterFailedProbe StatePattern.HalfOpenState)
          (readsAt 300 350)
  /\ StatePattern.state
       (StatePattern.setState afterFailedProbe StatePattern.HalfOpenState)
     = StatePattern.HalfOpenState
  /\ StatePattern.halfOpenRequestCount
       (StatePattern.setState afterFailedProbe StatePattern.HalfOpenState)
     = 1.
Proof.
  split; [ eexists; vm_compute; reflexivity | ].
  intros k; repeat split.
Qed.

(** ** The time of the last failure *)

(** The enum class stores the clock reading at every failure of the
    service whose reason is not [null] or [undefined], whatever the
    state. *)
Lemma EN_failure_sets_lastFailureTime (this : EnumVariant.CircuitBreaker)
    (a : Attempt) :
  invocations (snd (EnumVariant.callService this a)) = 1%nat ->
  failsWithReason a ->
  EnumVariant.lastFailureTime (fst (EnumVariant.callService this a))
  = Some (atFailure (reads a)).
Proof.
  destruct this as [st fc lft cfg rts]; destruct a as [[v | e |] rd];
    intros H F; [ discriminate F | | discriminate F ].
  destruct st; unfold_en; en_fields;
    repeat (break_if; en_fields); try reflexivity; discriminate.
Qed.

(** The state-pattern class stores it when the failure is handled by
    [ClosedState], and keeps the old value when it is handled by
    [HalfOpenState]. *)
Lemma SP_failure_and_lastFailureTime (ctx ctx' : StatePattern.CircuitBreaker)
    (a : Attempt) (r : Report) :
  StatePattern.callService ctx a = Some (ctx', r) ->
  invocations r = 1%nat ->
  failsWithReason a ->
  StatePattern.lastFailureTime ctx'
  = match StatePattern.state ctx with
    | StatePattern.ClosedState => Some (atFailure (reads a))
    | _ => StatePattern.lastFailureTime ctx
    end.
Proof.
  destruct ctx as [st fc lft cfg rts hc]; destruct a as [[v | e |] rd];
    intros H I F; [ discriminate F | | discriminate F ].
  destruct st; unfold_sp; sp_fields;
    repeat (match type of H with
            | context [if ?b then _ else _] => destruct b eqn:?
            end; sp_fields);
    inversion H; subst; try reflexivity; discriminate.
Qed.

(** In a loop of awaited calls on a fresh breaker of either class,
    [lastFailureTime] is a number whenever the breaker is not closed. *)
Lemma SP_call_keeps_lastFailureTime (ctx ctx' : StatePattern.CircuitBreaker)
    (a : Attempt) (r : Report) :
  (StatePattern.state ctx <> StatePattern.ClosedState ->
   StatePattern.lastFailureTime ctx <> None) ->
  StatePattern.callService ctx a = Some (ctx', r) ->
  StatePattern.state ctx' <> StatePattern.ClosedState ->
  StatePattern.lastFailureTime ctx' <> None.
Proof.
  destruct ctx as [st fc lft cfg rts hc]; destruct a as [[v | e |] rd];
    destruct st; intros I H; unfold_sp; sp_fields;
    repeat (match type of H with
            | context [if ?b then _ else _] => destruct b eqn:?
            end; sp_fields);
    inversion H; subst; cbn; intros S; try congruence;
    apply I; discriminate.
Qed.

Lemma SP_run_keeps_lastFailureTime (attempts : list Attempt) :
  forall (ctx ctx' : StatePattern.CircuitBreaker) (rs : list Report),
    (StatePattern.state ctx <> StatePattern.ClosedState ->
     StatePattern.lastFailureTime ctx <> None) ->
    StatePattern.run ctx attempts = Some (ctx', rs) ->
    StatePattern.state ctx' <> StatePattern.ClosedState ->
    StatePattern.lastFailureTime ctx' <> None.
Proof.
  induction attempts as [| a rest IH]; intros ctx ctx' rs I H; simpl in H.
  - inversion H; subst; exact I.
  - destruct (StatePattern.callService ctx a) as [[c r] |] eqn:E;
      [ | discriminate ].
    destruct (StatePattern.run c rest) as [[c' rs0] |] eqn:E'; [ | discriminate ].
    inversion H; subst.
    apply (IH c ctx' rs0); [ | exact E' ].
    exact (SP_call_keeps_lastFailureTime ctx c a r I E).
Qed.

Lemma EN_call_keeps_lastFailureTime (this : EnumVariant.CircuitBreaker)
    (a : Attempt) :
  (EnumVariant.state this <> CLOSED -> EnumVariant.lastFailureTime this <> None) ->
  EnumVariant.state (fst (EnumVariant.callService this a)) <> CLOSED ->
  EnumVariant.lastFailureTime (fst (EnumVariant.callService this a)) <> None.
Proof.
  destruct this as [st fc lft cfg rts]; destruct a as [[v | e |] rd];
    destruct st; intros I; unfold_en; en_fields;
    repeat (break_if; en_fields); cbn; intros S; try congruence;
    apply I; discriminate.
Qed.

Lemma EN_run_keeps_lastFailureTime (attempts : list Attempt) :
  forall this : EnumVariant.CircuitBreaker,
    (EnumVariant.state this <> CLOSED -> EnumVariant.lastFailureTime this <> None) ->
    EnumVariant.state (fst (EnumVariant.run this attempts)) <> CLOSED ->
    EnumVariant.lastFailureTime (fst (EnumVariant.run this attempts)) <> None.
Proof.
  induction attempts as [| a rest IH]; intros this I; simpl.
  - exact I.
  - pose proof (EN_call_keeps_lastFailureTime this a I) as I1.
    destruct (EnumVariant.callService this a) as [this1 r]; simpl in I1.
    specialize (IH this1 I1).
    destruct (EnumVariant.run this1 rest) as [this2 rs]; simpl in *.
    exact IH.
Qed.

(** C6 at the failing input.  With [strictConfig], the first failure is
    stored at clock reading 150; the probe that follows runs the service,
    fails at reading 210, and leaves [lastFailureTime] at 150 and
    [failureCount] at 1: [HalfOpenState.onFailure] (lines 236-239) only
    installs [OpenState], where [ClosedState.onFailure] calls
    [recordFailure] and the enum class stores the reading in every
    state. *)
Theorem half_open_failure_keeps_old_lastFailureTime :
  (exists ctx rs,
      StatePattern.run (StatePattern.new strictConfig) tripThenFailedProbe
        = Some (ctx, rs)
      /\ Forall (fun r => invocations r = 1%nat) rs
      /\ map atFailure (map reads tripThenFailedProbe) = [150; 210]
      /\ StatePattern.getState ctx = OPEN
      /\ StatePattern.lastFailureTime ctx = Some 150
      /\ StatePattern.failureCount ctx = 1)
  /\ EnumVariant.lastFailureTime
       (fst (EnumVariant.run (EnumVariant.new strictConfig) tripThenFailedProbe))
     = Some 210.
Proof.
  split; [ | reflexivity ].
  eexists; eexists; split; [ vm_compute; reflexivity | ].
  repeat split; repeat constructor.
Qed.

(** ** Leaving the open state *)

(** When the cooldown has passed and the counter is below the limit, the
    call installs [HalfOpenState], is dispatched once more and invokes the
    service once; unless the service rejects with [null] or [undefined],
    it appends one sample, measured from the start of the probe. *)
Lemma SP_open_call_after_cooldown (ctx : StatePattern.CircuitBreaker)
    (a : Attempt) :
  readable a ->
  StatePattern.state ctx = StatePattern.OpenState ->
  cooldownElapsed (StatePattern.lastFailureTime ctx) (atGate (reads a))
    (timeout (StatePattern.config ctx)) = true ->
  StatePattern.halfOpenRequestCount ctx
    < maxHalfOpenRequests (StatePattern.config ctx) ->
  exists ctx',
    StatePattern.enter 2 ctx (reads a)
      = Some (StatePattern.incrementHalfOpenRequest
                (StatePattern.setState ctx StatePattern.HalfOpenState),
              StatePattern.Await StatePattern.InHalfOpenState (atProbe (reads a)))
    /\ StatePattern.callService ctx a
       = Some (ctx', {| result := settledBy (settles a); invocations := 1 |})
    /\ StatePattern.responseTimes ctx'
       = StatePattern.responseTimes ctx
           ++ [atSettle (reads a) - atProbe (reads a)]
    /\ StatePattern.getState ctx'
       = if isRejected (settles a) then OPEN else CLOSED.
Proof.
  destruct ctx as [st fc lft cfg rts hc]; destruct a as [s rd].
  sp_fields; intros R -> E L.
  unfold StatePattern.callService.
  cbn [StatePattern.enter StatePattern.state reads].
  unfold StatePattern.OpenState_enter; sp_fields; rewrite E.
  cbn [StatePattern.enter StatePattern.setState StatePattern.state].
  unfold StatePattern.HalfOpenState_enter; sp_fields.
  assert (G : (hc >=? maxHalfOpenRequests cfg) = false)
    by (destruct (Z.geb_spec hc (maxHalfOpenRequests cfg)); [ lia | reflexivity ]).
  unfold StatePattern.setState, StatePattern.incrementHalfOpenRequest;
    sp_fields; rewrite G.
  destruct s as [v | e |]; try discriminate R; cbn;
    (eexists; split; [ reflexivity | split; [ reflexivity | split; reflexivity ] ]).
Qed.

Lemma EN_open_call_after_cooldown (this : EnumVariant.CircuitBreaker)
    (a : Attempt) :
  readable a ->
  EnumVariant.state this = OPEN ->
  cooldownElapsed (EnumVariant.lastFailureTime this) (atGate (reads a))
    (timeout (EnumVariant.config this)) = true ->
  EnumVariant.enter this (reads a)
    = (EnumVariant.setState this HALF_OPEN, EnumVariant.Await (atEntry (reads a)))
  /\ snd (EnumVariant.callService this a)
     = {| result := settledBy (settles a); invocations := 1 |}
  /\ EnumVariant.responseTimes (fst (EnumVariant.callService this a))
     = EnumVariant.responseTimes this
         ++ [atSettle (reads a) - atEntry (reads a)]
  /\ EnumVariant.getState (fst (EnumVariant.callService this a))
     = if isRejected (settles a) then OPEN else CLOSED.
Proof.
  destruct this as [st fc lft cfg rts]; destruct a as [s rd].
  en_fields; intros R -> E.
  unfold EnumVariant.callService, EnumVariant.enter; en_fields; rewrite E.
  destruct s as [v | e |]; try discriminate R; repeat split.
Qed.

(** C7 at the failing input.  [afterFailedProbe] is open since the failure
    at 150 with a cooldown of 10 ms; the first call after the cooldown, at
    300, installs [HalfOpenState] and is re-dispatched, but the counter
    left by the failed probe is at the limit, so the call is rejected, the
    service is not invoked, no sample is appended and [OpenState] is back
    in place. *)
Theorem first_call_after_cooldown_can_be_rejected :
  StatePattern.state afterFailedProbe = StatePattern.OpenState
  /\ cooldownElapsed (StatePattern.lastFailureTime afterFailedProbe)
       (atGate (reads (succeeding 300 350)))
       (timeout (StatePattern.config afterFailedProbe)) = true
  /\ StatePattern.callService afterFailedProbe (succeeding 300 350)
     = Some (afterFailedProbe,
             {| result := Thrown PROBE_LIMIT_MESSAGE; invocations := 0 |}).
Proof.
  repeat split.
Qed.

(** ** What one awaited call can do *)

(** X1.  An awaited call of either class has one of three outcomes.
    Either the service is invoked once; the caller then gets the value
    the service resolved with, or the reason it rejected with, or, when
    that reason is [null] or [undefined], the [TypeError] raised by the
    first line of the [catch] block, and in this last case the breaker
    records nothing: no sample, no failure, no change of state.  Or the
    breaker was open, the service is not invoked and the open-circuit
    error is thrown.  Or, in the state-pattern class only, the breaker was
    not closed, the service is not invoked and the probe-limit error is
    thrown.  A closed breaker never rejects, and every rejection leaves
    the breaker open. *)
Theorem call_passes_through_or_rejects :
  (forall (ctx : StatePattern.CircuitBreaker) (a : Attempt),
      exists ctx' r,
        StatePattern.callService ctx a = Some (ctx', r)
        /\ ((r = reached a
             /\ (isNullish (settles a) = true ->
                 StatePattern.getResponseTimes ctx'
                   = StatePattern.getResponseTimes ctx
                 /\ StatePattern.failureCount ctx'
                    = StatePattern.failureCount ctx
                 /\ StatePattern.lastFailureTime ctx'
                    = StatePattern.lastFailureTime ctx
                 /\ (StatePattern.getState ctx' = StatePattern.getState ctx
                     \/ StatePattern.getState ctx' = HALF_OPEN)))
            \/ (r = blockedReport
                /\ StatePattern.getState ctx = OPEN
                /\ StatePattern.getState ctx' = OPEN)
            \/ (r = {| result := Thrown PROBE_LIMIT_MESSAGE; invocations := 0 |}
                /\ StatePattern.getState ctx <> CLOSED
                /\ StatePattern.getState ctx' = OPEN)))
  /\ (forall (this : EnumVariant.CircuitBreaker) (a : Attempt),
      (snd (EnumVariant.callService this a) = reached a
       /\ (isNullish (settles a) = true ->
           fst (EnumVariant.callService this a)
           = fst (EnumVariant.enter this (reads a))))
      \/ (snd (EnumVariant.callService this a) = blockedReport
          /\ EnumVariant.getState this = OPEN
          /\ EnumVariant.getState (fst (EnumVariant.callService this a)) = OPEN)).
Proof.
  split.
  - intros [st fc lft cfg rts hc] [[v | e |] rd]; destruct st;
      unfold_sp; sp_fields; repeat (break_if; sp_fields);
      (eexists; eexists; split; [ reflexivity | ]); cbn;
      first [ left; split; [ reflexivity | intros N; try discriminate N;
                                            repeat split; auto ]
            | right; left; repeat split; reflexivity
            | right; right; repeat split; try reflexivity; discriminate ].
  - intros [st fc lft cfg rts] [[v | e |] rd]; destruct st;
      unfold_en; en_fields; repeat (break_if; en_fields); cbn;
      first [ left; split; [ reflexivity | intros N; try discriminate N;
                                            reflexivity ]
            | right; repeat split; reflexivity ].
Qed.

(** X2.  After an awaited call the breaker of either class is closed or
    open, with one exception: when the call ran the service as a probe
    and the service rejected with [null] or [undefined], the [catch]
    block stops at its first line and the breaker is left half-open.  So
    [getState()] read between awaited calls shows [HALF_OPEN] only after
    such a call. *)
Theorem awaited_call_rests_half_open_only_after_nullish_probe :
  (forall (ctx : StatePattern.CircuitBreaker) (a : Attempt),
      exists ctx' r,
        StatePattern.callService ctx a = Some (ctx', r)
        /\ (StatePattern.getState ctx' = CLOSED
            \/ StatePattern.getState ctx' = OPEN
            \/ (StatePattern.getState ctx' = HALF_OPEN
                /\ settles a = RejectedNullish
                /\ r = {| result := ThrownTypeError; invocations := 1 |}
                /\ StatePattern.getState ctx <> CLOSED)))
  /\ (forall (this : EnumVariant.CircuitBreaker) (a : Attempt),
      EnumVariant.getState (fst (EnumVariant.callService this a)) = CLOSED
      \/ EnumVariant.getState (fst (EnumVariant.callService this a)) = OPEN
      \/ (EnumVariant.getState (fst (EnumVariant.callService this a))
           = HALF_OPEN
          /\ settles a = RejectedNullish
          /\ snd (EnumVariant.callService this a)
             = {| result := ThrownTypeError; invocations := 1 |}
          /\ EnumVariant.getState this <> CLOSED)).
Proof.
  split.
  - intros [st fc lft cfg rts hc] [[v | e |] rd]; destruct st;
      unfold_sp; sp_fields; repeat (break_if; sp_fields);
      (eexists; eexists; split; [ reflexivity | ]); cbn;
      first [ left; reflexivity
            | right; left; reflexivity
            | right; right; repeat split; try reflexivity; discriminate ].
  - intros [st fc lft cfg rts] [[v | e |] rd]; destruct st;
      unfold_en; en_fields; repeat (break_if; en_fields); cbn;
      first [ left; reflexivity
            | right; left; reflexivity
            | right; right; repeat split; try reflexivity; discriminate ].
Qed.

(** ** A service that does not fail *)

Lemma SP_closed_successes (attempts : list Attempt) :
  forall ctx : StatePattern.CircuitBreaker,
    StatePattern.state ctx = StatePattern.ClosedState ->
    Forall succeeds attempts ->
    exists ctx',
      StatePattern.run ctx attempts
        = Some (ctx', map (fun a => {| result := settledBy (settles a);
                                       invocations := 1 |}) attempts)
      /\ StatePattern.getState ctx' = CLOSED
      /\ StatePattern.getResponseTimes ctx'
         = Driver.timeDirectCalls (StatePattern.getResponseTimes ctx) attempts
      /\ (attempts <> [] ->
          StatePattern.failureCount ctx' = 0
          /\ StatePattern.lastFailureTime ctx' = None
          /\ StatePattern.halfOpenRequestCount ctx' = 0).
Proof.
  induction attempts as [| a rest IH]; intros ctx Hst Hall.
  - exists ctx; simpl.
    split; [ reflexivity | split; [ | split; [ reflexivity | ] ] ].
    + unfold StatePattern.getState; rewrite Hst; reflexivity.
    + intros N; contradiction.
  - inversion Hall as [| ? ? Ha Hrest]; subst.
    destruct ctx as [st fc lft cfg rts hc]; simpl in Hst; subst st.
    destruct a as [[v | e |] rd]; [ | discriminate Ha | discriminate Ha ].
    destruct (IH (StatePattern.mkCircuitBreaker StatePattern.ClosedState 0 None
                    cfg (rts ++ [atSettle rd - atEntry rd]) 0)
                 eq_refl Hrest) as (ctx' & E & S & T & C).
    exists ctx'. cbn [StatePattern.run map]. unfold_sp; sp_fields.
    rewrite E.
    split; [ reflexivity | split; [ exact S | split; [ exact T | ] ] ].
    intros _. destruct rest as [| b rest'].
    + simpl in E; inversion E; subst; repeat split.
    + apply C; discriminate.
Qed.

Lemma EN_closed_successes (attempts : list Attempt) :
  forall this : EnumVariant.CircuitBreaker,
    EnumVariant.state this = CLOSED ->
    Forall succeeds attempts ->
    snd (EnumVariant.run this attempts)
      = map (fun a => {| result := settledBy (settles a); invocations := 1 |})
          attempts
    /\ EnumVariant.getState (fst (EnumVariant.run this attempts)) = CLOSED
    /\ EnumVariant.getResponseTimes (fst (EnumVariant.run this attempts))
       = Driver.timeDirectCalls (EnumVariant.getResponseTimes this) attempts
    /\ (attempts <> [] ->
        EnumVariant.failureCount (fst (EnumVariant.run this attempts)) = 0
        /\ EnumVariant.lastFailureTime (fst (EnumVariant.run this attempts))
           = None).
Proof.
  induction attempts as [| a rest IH]; intros this Hst Hall.
  - simpl. split; [ reflexivity | split; [ exact Hst | split; [ reflexivity | ] ] ].
    intros N; contradiction.
  - inversion Hall as [| ? ? Ha Hrest]; subst.
    destruct this as [st fc lft cfg rts]; simpl in Hst; subst st.
    destruct a as [[v | e |] rd]; [ | discriminate Ha | discriminate Ha ].
    specialize (IH (EnumVariant.mkCircuitBreaker CLOSED 0 None cfg
                      (rts ++ [atSettle rd - atEntry rd])) eq_refl Hrest).
    cbn [EnumVariant.run map]. unfold_en; en_fields.
    destruct (EnumVariant.run _ rest) as [this' rs] eqn:E.
    cbn [fst snd] in *. destruct IH as (R & S & T & C).
    split; [ rewrite R; reflexivity | split; [ exact S | split; [ exact T | ] ] ].
    intros _. destruct rest as [| b rest'].
    + simpl in E; inversion E; subst; split; reflexivity.
    + apply C; discriminate.
Qed.

(** X3.  A closed breaker is transparent while the service succeeds: in a
    loop of awaited calls whose service never fails, every call invokes
    the service once and returns its value, the breaker stays closed, the
    samples it appends to [responseTimes] are exactly the ones the loop of
    [runWithoutCircuitBreaker] would measure, and after the first call
    [failureCount] is 0, [lastFailureTime] is [null] and the probe counter
    is 0.  Both classes. *)
Theorem closed_breaker_is_transparent_on_success :
  (forall (ctx : StatePattern.CircuitBreaker) (attempts : list Attempt),
      StatePattern.state ctx = StatePattern.ClosedState ->
      Forall succeeds attempts ->
      exists ctx',
        StatePattern.run ctx attempts
          = Some (ctx', map (fun a => {| result := settledBy (settles a);
                                         invocations := 1 |}) attempts)
        /\ StatePattern.getState ctx' = CLOSED
        /\ StatePattern.getResponseTimes ctx'
           = Driver.timeDirectCalls (StatePattern.getResponseTimes ctx) attempts
        /\ (attempts <> [] ->
            StatePattern.failureCount ctx' = 0
            /\ StatePattern.lastFailureTime ctx' = None
            /\ StatePattern.halfOpenRequestCount ctx' = 0))
  /\ (forall (this : EnumVariant.CircuitBreaker) (attempts : list Attempt),
      EnumVariant.state this = CLOSED ->
      Forall succeeds attempts ->
      snd (EnumVariant.run this attempts)
        = map (fun a => {| result := settledBy (settles a); invocations := 1 |})
            attempts
      /\ EnumVariant.getState (fst (EnumVariant.run this attempts)) = CLOSED
      /\ EnumVariant.getResponseTimes (fst (EnumVariant.run this attempts))
         = Driver.timeDirectCalls (EnumVariant.getResponseTimes this) attempts
      /\ (attempts <> [] ->
          EnumVariant.failureCount (fst (EnumVariant.run this attempts)) = 0
          /\ EnumVariant.lastFailureTime (fst (EnumVariant.run this attempts))
             = None)).
Proof.
  split.
  - intros ctx attempts; apply SP_closed_successes.
  - intros this attempts; apply EN_closed_successes.
Qed.

Lemma closed_breaker_is_transparent_on_success_witness :
  (exists ctx',
      StatePattern.run (StatePattern.new scenarioConfig)
        [succeeding 0 10; succeeding 500 520]
        = Some (ctx', map (fun a => {| result := settledBy (settles a);
                                       invocations := 1 |})
                        [succeeding 0 10; succeeding 500 520])
      /\ StatePattern.getState ctx' = CLOSED
      /\ StatePattern.getResponseTimes ctx'
         = Driver.timeDirectCalls
             (StatePattern.getResponseTimes (StatePattern.new scenarioConfig))
             [succeeding 0 10; succeeding 500 520]
      /\ ([succeeding 0 10; succeeding 500 520] <> [] ->
          StatePattern.failureCount ctx' = 0
          /\ StatePattern.lastFailureTime ctx' = None
          /\ StatePattern.halfOpenRequestCount ctx' = 0))
  /\ EnumVariant.getResponseTimes
       (fst (EnumVariant.run (EnumVariant.new scenarioConfig)
               [succeeding 0 10; succeeding 500 520]))
     = [10; 20].
Proof.
  split.
  - apply (proj1 closed_breaker_is_transparent_on_success
             (StatePattern.new scenarioConfig)
             [succeeding 0 10; succeeding 500 520]);
      [ reflexivity | repeat constructor ].
  - apply (proj2 closed_breaker_is_transparent_on_success
             (EnumVariant.new scenarioConfig)
             [succeeding 0 10; succeeding 500 520]);
      [ reflexivity | repeat constructor ].
Defined.

(** ** The first [failureThreshold] calls *)

Lemma SP_closed_calls_within_threshold (attempts : list Attempt) :
  forall ctx : StatePattern.CircuitBreaker,
    StatePattern.state ctx = StatePattern.ClosedState ->
    0 <= StatePattern.failureCount ctx ->
    StatePattern.failureCount ctx + Z.of_nat (List.length attempts)
      <= failureThreshold (StatePattern.config ctx) ->
    exists ctx',
      StatePattern.run ctx attempts = Some (ctx', map reached attempts)
      /\ StatePattern.getResponseTimes ctx'
         = StatePattern.getResponseTimes ctx ++ entrySamples attempts.
Proof.
  unfold StatePattern.getResponseTimes, entrySamples.
  induction attempts as [| a rest IH]; intros ctx Hst Hfc Hle.
  - exists ctx; simpl; rewrite app_nil_r; auto.
  - destruct ctx as [st fc lft cfg rts hc]; simpl in Hst; subst st.
    cbn [List.length StatePattern.failureCount StatePattern.config] in *.
    destruct a as [[v | e |] rd].
    + destruct (IH (StatePattern.mkCircuitBreaker StatePattern.ClosedState 0
                      None cfg (rts ++ [atSettle rd - atEntry rd]) 0))
        as (ctx' & E & T); [ reflexivity | simpl; lia | simpl; lia | ].
      exists ctx'. cbn [StatePattern.run map filter]. unfold_sp; sp_fields.
      cbn [isNullish negb map].
      rewrite E; split; [ reflexivity | ].
      rewrite T; sp_fields; rewrite <- app_assoc; reflexivity.
    + cbn [StatePattern.run map filter]. unfold_sp; sp_fields.
      cbn [isNullish negb map].
      destruct (Z.geb_spec (fc + 1) (failureThreshold cfg)) as [Hge | Hlt].
      * destruct rest as [| b rest']; [ | cbn [List.length] in Hle; lia ].
        eexists; split; reflexivity.
      * destruct (IH (StatePattern.mkCircuitBreaker StatePattern.ClosedState
                        (fc + 1) (Some (atFailure rd)) cfg
                        (rts ++ [atSettle rd - atEntry rd]) hc))
          as (ctx' & E & T); [ reflexivity | simpl; lia | simpl; lia | ].
        exists ctx'. rewrite E; split; [ reflexivity | ].
        rewrite T; sp_fields; rewrite <- app_assoc; reflexivity.
    + destruct (IH (StatePattern.mkCircuitBreaker StatePattern.ClosedState fc
                      lft cfg rts hc))
        as (ctx' & E & T); [ reflexivity | simpl; lia | simpl; lia | ].
      exists ctx'. cbn [StatePattern.run map filter]. unfold_sp; sp_fields.
      cbn [isNullish negb map].
      rewrite E; split; [ reflexivity | exact T ].
Qed.

Lemma EN_closed_calls_within_threshold (attempts : list Attempt) :
  forall this : EnumVariant.CircuitBreaker,
    EnumVariant.state this = CLOSED ->
    0 <= EnumVariant.failureCount this ->
    EnumVariant.failureCount this + Z.of_nat (List.length attempts)
      <= failureThreshold (EnumVariant.config this) ->
    snd (EnumVariant.run this attempts) = map reached attempts
    /\ EnumVariant.getResponseTimes (fst (EnumVariant.run this attempts))
       = EnumVariant.getResponseTimes this ++ entrySamples attempts.
Proof.
  unfold EnumVariant.getResponseTimes, entrySamples.
  induction attempts as [| a rest IH]; intros this Hst Hfc Hle.
  - simpl; rewrite app_nil_r; auto.
  - destruct this as [st fc lft cfg rts]; simpl in Hst; subst st.
    cbn [List.length EnumVariant.failureCount EnumVariant.config] in *.
    destruct a as [[v | e |] rd].
    + specialize (IH (EnumVariant.mkCircuitBreaker CLOSED 0 None cfg
                        (rts ++ [atSettle rd - atEntry rd])) eq_refl).
      cbn [EnumVariant.failureCount EnumVariant.config] in IH.
      destruct IH as (R & T); [ lia | lia | ].
      cbn [EnumVariant.run map filter]. unfold_en; en_fields.
      cbn [isNullish negb map].
      destruct (EnumVariant.run _ rest) as [this' rs] eqn:E.
      cbn [fst snd] in *. split; [ rewrite R; reflexivity | ].
      rewrite T; en_fields; rewrite <- app_assoc; reflexivity.
    + cbn [EnumVariant.run map filter]. unfold_en; en_fields.
      cbn [isNullish negb map].
      destruct (Z.geb_spec (fc + 1) (failureThreshold cfg)) as [Hge | Hlt].
      * destruct rest as [| b rest']; [ | cbn [List.length] in Hle; lia ].
        split; reflexivity.
      * specialize (IH (EnumVariant.mkCircuitBreaker CLOSED (fc + 1)
                          (Some (atFailure rd)) cfg
                          (rts ++ [atSettle rd - atEntry rd])) eq_refl).
        cbn [EnumVariant.failureCount EnumVariant.config] in IH.
        destruct IH as (R & T); [ lia | lia | ].
        destruct (EnumVariant.run _ rest) as [this' rs] eqn:E.
        cbn [fst snd] in *. split; [ rewrite R; reflexivity | ].
        rewrite T; en_fields; rewrite <- app_assoc; reflexivity.
    + specialize (IH (EnumVariant.mkCircuitBreaker CLOSED fc lft cfg rts)
                     eq_refl).
      cbn [EnumVariant.failureCount EnumVariant.config] in IH.
      destruct IH as (R & T); [ lia | lia | ].
      cbn [EnumVariant.run map filter]. unfold_en; en_fields.
      cbn [isNullish negb map].
      destruct (EnumVariant.run _ rest) as [this' rs] eqn:E.
      cbn [fst snd] in *. split; [ rewrite R; reflexivity | exact T ].
Qed.

(** X4.  A fresh breaker never stands in the way of the first
    [failureThreshold] calls: whatever the service does, each of these
    calls invokes the service once and the caller gets the value the
    service resolved with, the reason it rejected with, or the
    [TypeError] of the [catch] block when that reason is [null] or
    [undefined].  [responseTimes] holds one sample per call, measured from
    the entry of the call to the settlement of the service, except for
    the calls whose service rejected with [null] or [undefined], which
    leave none.  Both classes. *)
Theorem first_threshold_calls_always_reach_the_service
    (cfg : CircuitBreakerConfig) (attempts : list Attempt) :
  Z.of_nat (List.length attempts) <= failureThreshold cfg ->
  (exists ctx',
      StatePattern.run (StatePattern.new cfg) attempts
        = Some (ctx', map reached attempts)
      /\ StatePattern.getResponseTimes ctx' = entrySamples attempts)
  /\ snd (EnumVariant.run (EnumVariant.new cfg) attempts) = map reached attempts
  /\ EnumVariant.getResponseTimes
       (fst (EnumVariant.run (EnumVariant.new cfg) attempts))
     = entrySamples attempts.
Proof.
  intros H. split.
  - apply (SP_closed_calls_within_threshold attempts (StatePattern.new cfg));
      simpl; [ reflexivity | lia | lia ].
  - apply (EN_closed_calls_within_threshold attempts (EnumVariant.new cfg));
      simpl; [ reflexivity | lia | lia ].
Qed.

Lemma first_threshold_calls_always_reach_the_service_witness :
  (exists ctx',
      StatePattern.run (StatePattern.new scenarioConfig)
        [failing 0 10; nullishFailing 500 520; succeeding 1000 1010]
        = Some (ctx', map reached
                        [failing 0 10; nullishFailing 500 520;
                         succeeding 1000 1010])
      /\ StatePattern.getResponseTimes ctx'
         = entrySamples
             [failing 0 10; nullishFailing 500 520; succeeding 1000 1010])
  /\ snd (EnumVariant.run (EnumVariant.new scenarioConfig)
            [failing 0 10; nullishFailing 500 520; succeeding 1000 1010])
     = map reached
         [failing 0 10; nullishFailing 500 520; succeeding 1000 1010]
  /\ EnumVariant.getResponseTimes
       (fst (EnumVariant.run (EnumVariant.new scenarioConfig)
               [failing 0 10; nullishFailing 500 520; succeeding 1000 1010]))
     = entrySamples
         [failing 0 10; nullishFailing 500 520; succeeding 1000 1010].
Proof.
  apply (first_threshold_calls_always_reach_the_service scenarioConfig
           [failing 0 10; nullishFailing 500 520; succeeding 1000 1010]).
  simpl; lia.
Defined.

(** ** Invariants *)

Lemma SP_step_keeps_probe_budget (ctx : StatePattern.CircuitBreaker)
    (e : SPStep) :
  probeBudgetKept ctx ->
  exists ctx',
    spStep ctx e = Some ctx'
    /\ probeBudgetKept ctx'
    /\ StatePattern.config ctx' = StatePattern.config ctx
    /\ match e with
       | SPStart _ =>
           StatePattern.halfOpenRequestCount ctx'
             = StatePattern.halfOpenRequestCount ctx
           \/ (StatePattern.halfOpenRequestCount ctx
                 < maxHalfOpenRequests (StatePattern.config ctx)
               /\ StatePattern.halfOpenRequestCount ctx'
                  = StatePattern.halfOpenRequestCount ctx + 1)
       | SPSettle _ _ _ _ =>
           StatePattern.halfOpenRequestCount ctx'
             = StatePattern.halfOpenRequestCount ctx
           \/ StatePattern.halfOpenRequestCount ctx' = 0
       end.
Proof.
  unfold probeBudgetKept.
  destruct ctx as [st fc lft cfg rts hc]; sp_fields; intros B.
  destruct e as [rd | this startTime [v | err |] rd]; unfold spStep.
  - destruct st; unfold_sp; sp_fields; repeat (break_if; sp_fields);
      (eexists; split; [ reflexivity | ]); sp_fields;
      (split; [ lia | split; [ reflexivity | ] ]);
      first [ left; reflexivity | right; split; [ lia | reflexivity ] ].
  - destruct this; unfold_sp; sp_fields;
      (eexists; split; [ reflexivity | ]); sp_fields;
      (split; [ lia | split; [ reflexivity | right; reflexivity ] ]).
  - destruct this; unfold_sp; sp_fields; repeat (break_if; sp_fields);
      (eexists; split; [ reflexivity | ]); sp_fields;
      (split; [ lia | split; [ reflexivity | left; reflexivity ] ]).
  - destruct this; unfold_sp; sp_fields;
      (eexists; split; [ reflexivity | ]); sp_fields;
      (split; [ lia | split; [ reflexivity | left; reflexivity ] ]).
Qed.

(** X5.  In the state-pattern class, under every interleaving of call
    starts and settlements that begins with the probe counter between 0
    and [maxHalfOpenRequests], the counter stays in that range and the
    configuration is never changed.  Step by step: the start of a call
    leaves the counter alone or, only while it is below the limit, adds
    one; a settlement leaves it alone or resets it to 0. *)
Theorem probe_counter_stays_within_budget
    (ctx : StatePattern.CircuitBreaker) :
  probeBudgetKept ctx ->
  (forall e : SPStep,
      exists ctx',
        spStep ctx e = Some ctx'
        /\ match e with
           | SPStart _ =>
               StatePattern.halfOpenRequestCount ctx'
                 = StatePattern.halfOpenRequestCount ctx
               \/ (StatePattern.halfOpenRequestCount ctx
                     < maxHalfOpenRequests (StatePattern.config ctx)
                   /\ StatePattern.halfOpenRequestCount ctx'
                      = StatePattern.halfOpenRequestCount ctx + 1)
           | SPSettle _ _ _ _ =>
               StatePattern.halfOpenRequestCount ctx'
                 = StatePattern.halfOpenRequestCount ctx
               \/ StatePattern.halfOpenRequestCount ctx' = 0
           end)
  /\ (forall es : list SPStep,
      exists ctx',
        spSteps ctx es = Some ctx'
        /\ probeBudgetKept ctx'
        /\ StatePattern.config ctx' = StatePattern.config ctx).
Proof.
  intros B. split.
  - intros e.
    destruct (SP_step_keeps_probe_budget ctx e B) as (c & E & _ & _ & S).
    exists c; auto.
  - intros es. revert ctx B.
    induction es as [| e rest IH]; intros ctx B.
    + exists ctx; simpl; auto.
    + destruct (SP_step_keeps_probe_budget ctx e B) as (c & E & B' & C & _).
      destruct (IH c B') as (c' & E' & B'' & C').
      exists c'; simpl; rewrite E, E'; repeat split; try apply B''; congruence.
Qed.

Lemma probe_counter_stays_within_budget_witness :
  exists ctx',
    spSteps openSince150
      [SPStart (readsAt 300 320); SPStart (readsAt 301 321);
       SPSettle StatePattern.InHalfOpenState 300 (Rejected EmptyString)
         (readsAt 300 320)]
    = Some ctx'
    /\ probeBudgetKept ctx'
    /\ StatePattern.config ctx' = StatePattern.config openSince150.
Proof.
  apply (proj2 (probe_counter_stays_within_budget openSince150
                  ltac:(unfold probeBudgetKept; simpl; lia))
           [SPStart (readsAt 300 320); SPStart (readsAt 301 321);
            SPSettle StatePattern.InHalfOpenState 300 (Rejected EmptyString)
              (readsAt 300 320)]).
Defined.

Ltac invariant_cases :=
  intuition (try lia; try discriminate; try congruence).

Lemma SP_call_keeps_restingInvariant (cfg : CircuitBreakerConfig)
    (ctx : StatePattern.CircuitBreaker) (a : Attempt) :
  1 <= failureThreshold cfg ->
  restingInvariant cfg ctx ->
  exists ctx' r,
    StatePattern.callService ctx a = Some (ctx', r)
    /\ restingInvariant cfg ctx'.
Proof.
  unfold restingInvariant.
  destruct ctx as [st fc lft cfg' rts hc]; destruct a as [[v | e |] rd];
    sp_fields; intros T (C & I & S); subst cfg';
    destruct st; try contradiction;
    unfold_sp; sp_fields; repeat (break_if; sp_fields);
    (eexists; eexists; split; [ reflexivity | ]); sp_fields;
    invariant_cases.
Qed.

(** X6.  In a loop of awaited calls on a fresh state-pattern breaker with
    a threshold of at least one, after every call: the configuration is the
    one given to the constructor; [failureCount] is 0 exactly when
    [lastFailureTime] is [null]; a closed breaker has
    [0 <= failureCount < failureThreshold] and a probe counter of 0; a
    breaker that is open, or left half-open by a probe whose service
    rejected with [null] or [undefined], has
    [failureCount = failureThreshold], so the count never exceeds the
    threshold. *)
Theorem state_pattern_resting_invariant
    (cfg : CircuitBreakerConfig) (attempts : list Attempt) :
  1 <= failureThreshold cfg ->
  exists ctx rs,
    StatePattern.run (StatePattern.new cfg) attempts = Some (ctx, rs)
    /\ restingInvariant cfg ctx.
Proof.
  intros T.
  assert (G : forall attempts ctx, restingInvariant cfg ctx ->
            exists ctx' rs, StatePattern.run ctx attempts = Some (ctx', rs)
                            /\ restingInvariant cfg ctx').
  { clear attempts. induction attempts as [| a rest IH]; intros ctx I.
    - exists ctx, []; simpl; auto.
    - destruct (SP_call_keeps_restingInvariant cfg ctx a T I) as (c & r & E & I').
      destruct (IH c I') as (c' & rs & E' & I'').
      exists c', (r :: rs); simpl; rewrite E, E'; auto. }
  apply G. unfold restingInvariant; simpl. invariant_cases.
Qed.

Lemma state_pattern_resting_invariant_witness :
  exists ctx rs,
    StatePattern.run (StatePattern.new strictConfig) tripProbeRetry
      = Some (ctx, rs)
    /\ restingInvariant strictConfig ctx.
Proof.
  apply (state_pattern_resting_invariant strictConfig tripProbeRetry).
  simpl; lia.
Defined.

Lemma EN_step_keeps_enumInvariant (cfg : CircuitBreakerConfig)
    (this : EnumVariant.CircuitBreaker) (e : ENStep) :
  1 <= failureThreshold cfg ->
  enumInvariant cfg this ->
  enumInvariant cfg (enStep this e).
Proof.
  unfold enumInvariant.
  destruct this as [st fc lft cfg' rts]; en_fields;
    intros T (C & P & I & S); subst cfg'.
  destruct e as [rd | startTime [v | err |] rd]; unfold enStep;
    destruct st; unfold_en; en_fields; repeat (break_if; en_fields);
    try (match goal with
         | H : cooldownElapsed _ _ _ = true |- _ =>
             apply cooldownElapsed_true in H; destruct H as (? & ? & ? & ?)
         end);
    invariant_cases.
Qed.

(** X7.  In the enum class the following holds at every moment, under
    every interleaving of call starts and settlements on a fresh breaker
    with a threshold of at least one: the configuration is unchanged;
    [failureCount] is non-negative and is 0 exactly when [lastFailureTime]
    is [null]; a closed breaker has [failureCount < failureThreshold]; an
    open or half-open breaker has [failureCount >= failureThreshold] and
    therefore a recorded [lastFailureTime]. *)
Theorem enum_invariant_under_interleaving
    (cfg : CircuitBreakerConfig) (es : list ENStep) :
  1 <= failureThreshold cfg ->
  enumInvariant cfg (enSteps (EnumVariant.new cfg) es).
Proof.
  intros T. unfold enSteps.
  assert (G : forall es this, enumInvariant cfg this ->
                              enumInvariant cfg (fold_left enStep es this)).
  { clear es. induction es as [| e rest IH]; intros this I; simpl.
    - exact I.
    - apply IH, EN_step_keeps_enumInvariant; assumption. }
  apply G. unfold enumInvariant; simpl. invariant_cases.
Qed.

Lemma enum_invariant_under_interleaving_witness :
  enumInvariant strictConfig
    (enSteps (EnumVariant.new strictConfig)
       [ENStart (readsAt 100 150); ENStart (readsAt 101 151);
        ENSettle 101 (Rejected EmptyString) (readsAt 101 151);
        ENSettle 100 (Resolved EmptyString) (readsAt 100 150);
        ENStart (readsAt 300 350)]).
Proof.
  apply (enum_invariant_under_interleaving strictConfig).
  simpl; lia.
Defined.

(** ** An open breaker that cannot cool down *)

Lemma neverCoolsDown_gate (lft : option Z) (now tmo : Z) :
  neverCoolsDown lft -> cooldownElapsed lft now tmo = false.
Proof.
  intros [-> | ->]; reflexivity.
Qed.

Lemma SP_stranded_run (attempts : list Attempt) :
  forall ctx : StatePattern.CircuitBreaker,
    StatePattern.state ctx = StatePattern.OpenState ->
    neverCoolsDown (StatePattern.lastFailureTime ctx) ->
    exists ctx',
      StatePattern.run ctx attempts
        = Some (ctx', map (fun _ => blockedReport) attempts)
      /\ StatePattern.getState ctx' = OPEN
      /\ StatePattern.lastFailureTime ctx' = StatePattern.lastFailureTime ctx
      /\ StatePattern.getResponseTimes ctx'
         = StatePattern.getResponseTimes ctx
             ++ map (fun a => atBlocked (reads a) - atEntry (reads a)) attempts.
Proof.
  induction attempts as [| a rest IH]; intros ctx Hst Hn.
  - exists ctx; simpl. rewrite app_nil_r.
    unfold StatePattern.getState; rewrite Hst; auto.
  - destruct ctx as [st fc lft cfg rts hc]; sp_fields; subst st.
    destruct (IH (StatePattern.mkCircuitBreaker StatePattern.OpenState fc lft
                    cfg (rts ++ [atBlocked (reads a) - atEntry (reads a)]) hc)
                 eq_refl Hn) as (ctx' & E & S & L & T).
    exists ctx'. cbn [StatePattern.run map]. unfold_sp; sp_fields.
    rewrite (neverCoolsDown_gate _ _ _ Hn). sp_fields. rewrite E.
    unfold StatePattern.getResponseTimes in *; sp_fields.
    rewrite T, <- app_assoc. repeat split; auto.
Qed.

Lemma EN_stranded_run (attempts : list Attempt) :
  forall this : EnumVariant.CircuitBreaker,
    EnumVariant.state this = OPEN ->
    neverCoolsDown (EnumVariant.lastFailureTime this) ->
    snd (EnumVariant.run this attempts) = map (fun _ => blockedReport) attempts
    /\ EnumVariant.getState (fst (EnumVariant.run this attempts)) = OPEN
    /\ EnumVariant.lastFailureTime (fst (EnumVariant.run this attempts))
       = EnumVariant.lastFailureTime this
    /\ EnumVariant.getResponseTimes (fst (EnumVariant.run this attempts))
       = EnumVariant.getResponseTimes this
           ++ map (fun a => atBlocked (reads a) - atEntry (reads a)) attempts.
Proof.
  induction attempts as [| a rest IH]; intros this Hst Hn.
  - simpl. rewrite app_nil_r. auto.
  - destruct this as [st fc lft cfg rts]; en_fields; subst st.
    specialize (IH (EnumVariant.mkCircuitBreaker OPEN fc lft cfg
                      (rts ++ [atBlocked (reads a) - atEntry (reads a)]))
                   eq_refl Hn).
    cbn [EnumVariant.run map]. unfold_en; en_fields.
    rewrite (neverCoolsDown_gate _ _ _ Hn). en_fields.
    destruct (EnumVariant.run _ rest) as [this' rs] eqn:E.
    unfold EnumVariant.getResponseTimes, EnumVariant.getState in *;
      en_fields.
    destruct IH as (R & S & L & T).
    rewrite R, T, <- app_assoc. repeat split; auto.
Qed.

(** X8.  The gate of the open state tests [lastFailureTime] for
    truthiness, so an open breaker whose [lastFailureTime] is [null] or
    the reading [0] never lets a call through again, however late the call
    comes: every awaited call is rejected with the open-circuit error
    without invoking the service, appends its sample, and leaves the
    breaker open with the same [lastFailureTime].  Both classes. *)
Theorem open_without_failure_time_blocks_forever :
  (forall (ctx : StatePattern.CircuitBreaker) (attempts : list Attempt),
      StatePattern.state ctx = StatePattern.OpenState ->
      neverCoolsDown (StatePattern.lastFailureTime ctx) ->
      exists ctx',
        StatePattern.run ctx attempts
          = Some (ctx', map (fun _ => blockedReport) attempts)
        /\ StatePattern.getState ctx' = OPEN
        /\ StatePattern.lastFailureTime ctx' = StatePattern.lastFailureTime ctx
        /\ StatePattern.getResponseTimes ctx'
           = StatePattern.getResponseTimes ctx
               ++ map (fun a => atBlocked (reads a) - atEntry (reads a))
                    attempts)
  /\ (forall (this : EnumVariant.CircuitBreaker) (attempts : list Attempt),
      EnumVariant.state this = OPEN ->
      neverCoolsDown (EnumVariant.lastFailureTime this) ->
      snd (EnumVariant.run this attempts)
        = map (fun _ => blockedReport) attempts
      /\ EnumVariant.getState (fst (EnumVariant.run this attempts)) = OPEN
      /\ EnumVariant.lastFailureTime (fst (EnumVariant.run this attempts))
         = EnumVariant.lastFailureTime this
      /\ EnumVariant.getResponseTimes (fst (EnumVariant.run this attempts))
         = EnumVariant.getResponseTimes this
             ++ map (fun a => atBlocked (reads a) - atEntry (reads a))
                  attempts).
Proof.
  split.
  - intros ctx attempts; apply SP_stranded_run.
  - intros this attempts; apply EN_stranded_run.
Qed.

Lemma open_without_failure_time_blocks_forever_witness :
  (exists ctx',
      StatePattern.run openAtEpoch laterCalls
        = Some (ctx', map (fun _ => blockedReport) laterCalls)
      /\ StatePattern.getState ctx' = OPEN
      /\ StatePattern.lastFailureTime ctx'
         = StatePattern.lastFailureTime openAtEpoch
      /\ StatePattern.getResponseTimes ctx'
         = StatePattern.getResponseTimes openAtEpoch
             ++ map (fun a => atBlocked (reads a) - atEntry (reads a))
                  laterCalls)
  /\ snd (EnumVariant.run openAtEpochEnum laterCalls)
     = map (fun _ => blockedReport) laterCalls.
Proof.
  split.
  - apply (proj1 open_without_failure_time_blocks_forever
             openAtEpoch laterCalls);
      [ reflexivity | right; reflexivity ].
  - apply (proj2 open_without_failure_time_blocks_forever
             openAtEpochEnum laterCalls);
      [ reflexivity | right; reflexivity ].
Defined.

(** ** Settlements that arrive late (state-pattern class) *)

(** X9.  In the state-pattern class a call that started while the breaker
    was closed and succeeds after other failures have opened it runs
    [ClosedState.onSuccess], which resets the counters without looking at
    the state: the breaker stays open with [lastFailureTime] cleared, and
    from then on every awaited call is rejected with the open-circuit
    error and the service is never invoked again. *)
Theorem late_success_strands_open_breaker
    (ctx : StatePattern.CircuitBreaker) (startTime : Z) (value : string)
    (rd : Reads) (attempts : list Attempt) :
  StatePattern.state ctx = StatePattern.OpenState ->
  exists ctx1 ctx2,
    StatePattern.resume StatePattern.InClosedState ctx startTime
      (Resolved value) rd = (ctx1, Returned value)
    /\ StatePattern.getState ctx1 = OPEN
    /\ StatePattern.lastFailureTime ctx1 = None
    /\ StatePattern.failureCount ctx1 = 0
    /\ StatePattern.run ctx1 attempts
       = Some (ctx2, map (fun _ => blockedReport) attempts)
    /\ StatePattern.getState ctx2 = OPEN.
Proof.
  intros Hst.
  destruct ctx as [st fc lft cfg rts hc]; sp_fields; subst st.
  destruct (SP_stranded_run attempts
              (StatePattern.mkCircuitBreaker StatePattern.OpenState 0 None cfg
                 (rts ++ [atSettle rd - startTime]) 0))
    as (ctx2 & E & S & _); [ reflexivity | left; reflexivity | ].
  eexists; exists ctx2. unfold_sp; sp_fields.
  split; [ reflexivity | ]. repeat split; auto.
Qed.

Lemma late_success_strands_open_breaker_witness :
  exists ctx1 ctx2,
    StatePattern.resume StatePattern.InClosedState openSince150 100
      (Resolved EmptyString) (readsAt 100 160) = (ctx1, Returned EmptyString)
    /\ StatePattern.getState ctx1 = OPEN
    /\ StatePattern.lastFailureTime ctx1 = None
    /\ StatePattern.failureCount ctx1 = 0
    /\ StatePattern.run ctx1 laterCalls
       = Some (ctx2, map (fun _ => blockedReport) laterCalls)
    /\ StatePattern.getState ctx2 = OPEN.
Proof.
  apply (late_success_strands_open_breaker openSince150 100 EmptyString
           (readsAt 100 160) laterCalls).
  reflexivity.
Defined.

(** X10.  In the state-pattern class a probe whose service rejects, with
    a reason other than [null] and [undefined], after another probe has
    already closed the breaker runs [HalfOpenState.onFailure],
    which installs [OpenState] without recording the failure: the breaker
    is open with [lastFailureTime] still [null], and every later awaited
    call is rejected with the open-circuit error without invoking the
    service. *)
Theorem late_probe_failure_strands_breaker
    (ctx : StatePattern.CircuitBreaker) (startTime : Z) (error : string)
    (rd : Reads) (attempts : list Attempt) :
  StatePattern.lastFailureTime ctx = None ->
  exists ctx1 ctx2,
    StatePattern.resume StatePattern.InHalfOpenState ctx startTime
      (Rejected error) rd = (ctx1, Thrown error)
    /\ StatePattern.getState ctx1 = OPEN
    /\ StatePattern.lastFailureTime ctx1 = None
    /\ StatePattern.failureCount ctx1 = StatePattern.failureCount ctx
    /\ StatePattern.run ctx1 attempts
       = Some (ctx2, map (fun _ => blockedReport) attempts)
    /\ StatePattern.getState ctx2 = OPEN.
Proof.
  intros Hl.
  destruct ctx as [st fc lft cfg rts hc]; sp_fields; subst lft.
  destruct (SP_stranded_run attempts
              (StatePattern.mkCircuitBreaker StatePattern.OpenState fc None cfg
                 (rts ++ [atSettle rd - startTime]) hc))
    as (ctx2 & E & S & _); [ reflexivity | left; reflexivity | ].
  eexists; exists ctx2. unfold_sp; sp_fields.
  split; [ reflexivity | ]. repeat split; auto.
Qed.

Lemma late_probe_failure_strands_breaker_witness :
  exists ctx1 ctx2,
    StatePattern.resume StatePattern.InHalfOpenState closedWithPendingProbe
      9001 (Rejected EmptyString) (readsAt 9001 9701) = (ctx1, Thrown EmptyString)
    /\ StatePattern.getState ctx1 = OPEN
    /\ StatePattern.lastFailureTime ctx1 = None
    /\ StatePattern.failureCount ctx1
       = StatePattern.failureCount closedWithPendingProbe
    /\ StatePattern.run ctx1 laterCalls
       = Some (ctx2, map (fun _ => blockedReport) laterCalls)
    /\ StatePattern.getState ctx2 = OPEN.
Proof.
  apply (late_probe_failure_strands_breaker closedWithPendingProbe 9001
           EmptyString (readsAt 9001 9701) laterCalls).
  reflexivity.
Defined.

(** [closedWithPendingProbe] arises with the driver's configuration: five
    awaited failures open the breaker, two calls start after the cooldown
    and are both admitted as probes, and the first of them succeeds. *)
Lemma closedWithPendingProbe_reachable :
  spSteps (StatePattern.new Driver.config)
    [SPStart (readsAt 0 700);
     SPSettle StatePattern.InClosedState 0 (Rejected EmptyString) (readsAt 0 700);
     SPStart (readsAt 1200 1900);
     SPSettle StatePattern.InClosedState 1200 (Rejected EmptyString)
       (readsAt 1200 1900);
     SPStart (readsAt 2400 3100);
     SPSettle StatePattern.InClosedState 2400 (Rejected EmptyString)
       (readsAt 2400 3100);
     SPStart (readsAt 3600 4300);
     SPSettle StatePattern.InClosedState 3600 (Rejected EmptyString)
       (readsAt 3600 4300);
     SPStart (readsAt 4800 5500);
     SPSettle StatePattern.InClosedState 4800 (Rejected EmptyString)
       (readsAt 4800 5500);
     SPStart (readsAt 9000 9020);
     SPStart (readsAt 9001 9701);
     SPSettle StatePattern.InHalfOpenState 9000 (Resolved EmptyString)
       (readsAt 9000 9020)]
  = Some closedWithPendingProbe.
Proof.
  vm_compute; reflexivity.
Qed.

(** ** The outcome of a probe *)

(** X11.  In the enum class, a call that finds the breaker open with the
    cooldown over invokes the service once and hands its outcome to the
    caller.  If the service succeeds, the sample [endTime - startTime] is
    appended and the breaker is closed with [failureCount = 0] and
    [lastFailureTime] cleared.  If it rejects with a reason other than
    [null] and [undefined], the sample is appended, the breaker is open
    again, [failureCount] has grown by one and [lastFailureTime] is the
    reading taken at the failure, so the cooldown starts afresh: a
    following call made less than [timeout] after that reading is
    blocked.  If it rejects with [null] or [undefined], the caller gets a
    [TypeError], no sample is appended, the counters are untouched and the
    breaker is left half-open. *)
Theorem enum_probe_outcome
    (this : EnumVariant.CircuitBreaker) (a : Attempt) (t : Z) :
  EnumVariant.state this = OPEN ->
  EnumVariant.lastFailureTime this = Some t ->
  t <> 0 ->
  timeout (EnumVariant.config this) <= atGate (reads a) - t ->
  snd (EnumVariant.callService this a) = reached a
  /\ (succeeds a ->
      EnumVariant.getResponseTimes (fst (EnumVariant.callService this a))
        = EnumVariant.getResponseTimes this
            ++ [atSettle (reads a) - atEntry (reads a)]
      /\ EnumVariant.getState (fst (EnumVariant.callService this a)) = CLOSED
      /\ EnumVariant.failureCount (fst (EnumVariant.callService this a)) = 0
      /\ EnumVariant.lastFailureTime (fst (EnumVariant.callService this a))
         = None)
  /\ (failsWithReason a ->
      EnumVariant.getResponseTimes (fst (EnumVariant.callService this a))
        = EnumVariant.getResponseTimes this
            ++ [atSettle (reads a) - atEntry (reads a)]
      /\ EnumVariant.getState (fst (EnumVariant.callService this a)) = OPEN
      /\ EnumVariant.failureCount (fst (EnumVariant.callService this a))
         = EnumVariant.failureCount this + 1
      /\ EnumVariant.lastFailureTime (fst (EnumVariant.callService this a))
         = Some (atFailure (reads a))
      /\ forall b : Attempt,
          atGate (reads b) - atFailure (reads a)
            < timeout (EnumVariant.config this) ->
          snd (EnumVariant.callService
                 (fst (EnumVariant.callService this a)) b)
          = blockedReport)
  /\ (settles a = RejectedNullish ->
      fst (EnumVariant.callService this a)
      = EnumVariant.setState this HALF_OPEN).
Proof.
  intros Hst Hl Ht Hgate.
  assert (E : cooldownElapsed (EnumVariant.lastFailureTime this)
                (atGate (reads a)) (timeout (EnumVariant.config this)) = true)
    by (apply cooldownElapsed_true; exists t; auto).
  destruct (EnumVariant.callService this a) as [this' r] eqn:Hc.
  destruct this as [st fc lft cfg rts]; destruct a as [[v | e |] rd];
    en_fields; subst st lft;
    unfold EnumVariant.getResponseTimes, EnumVariant.getState, succeeds,
      failsWithReason, reached;
    unfold EnumVariant.callService, EnumVariant.enter in Hc;
    en_fields; rewrite E in Hc; unfold_en; en_fields;
    inversion Hc; subst; clear Hc; en_fields.
  - split; [ reflexivity | split; [ | split ] ].
    + intros _; repeat split.
    + discriminate.
    + discriminate.
  - split; [ reflexivity | split; [ | split ] ].
    + discriminate.
    + intros _. repeat split.
      intros b Hb. rewrite (cooldownElapsed_early _ _ _ Hb). reflexivity.
    + discriminate.
  - split; [ reflexivity | split; [ | split ] ].
    + discriminate.
    + discriminate.
    + reflexivity.
Qed.

Lemma enum_probe_outcome_witness :
  snd (EnumVariant.callService openSince150Enum (failing 200 210))
    = reached (failing 200 210)
  /\ (succeeds (failing 200 210) ->
      EnumVariant.getResponseTimes
        (fst (EnumVariant.callService openSince150Enum (failing 200 210)))
        = EnumVariant.getResponseTimes openSince150Enum
            ++ [atSettle (reads (failing 200 210))
                - atEntry (reads (failing 200 210))]
      /\ EnumVariant.getState
           (fst (EnumVariant.callService openSince150Enum (failing 200 210)))
         = CLOSED
      /\ EnumVariant.failureCount
           (fst (EnumVariant.callService openSince150Enum (failing 200 210)))
         = 0
      /\ EnumVariant.lastFailureTime
           (fst (EnumVariant.callService openSince150Enum (failing 200 210)))
         = None)
  /\ (failsWithReason (failing 200 210) ->
      EnumVariant.getResponseTimes
        (fst (EnumVariant.callService openSince150Enum (failing 200 210)))
        = EnumVariant.getResponseTimes openSince150Enum
            ++ [atSettle (reads (failing 200 210))
                - atEntry (reads (failing 200 210))]
      /\ EnumVariant.getState
           (fst (EnumVariant.callService openSince150Enum (failing 200 210)))
         = OPEN
      /\ EnumVariant.failureCount
           (fst (EnumVariant.callService openSince150Enum (failing 200 210)))
         = EnumVariant.failureCount openSince150Enum + 1
      /\ EnumVariant.lastFailureTime
           (fst (EnumVariant.callService openSince150Enum (failing 200 210)))
         = Some (atFailure (reads (failing 200 210)))
      /\ forall b : Attempt,
          atGate (reads b) - atFailure (reads (failing 200 210))
            < timeout (EnumVariant.config openSince150Enum) ->
          snd (EnumVariant.callService
                 (fst (EnumVariant.callService openSince150Enum
                         (failing 200 210))) b)
          = blockedReport)
  /\ (settles (failing 200 210) = RejectedNullish ->
      fst (EnumVariant.callService openSince150Enum (failing 200 210))
      = EnumVariant.setState openSince150Enum HALF_OPEN).
Proof.
  apply (enum_probe_outcome openSince150Enum (failing 200 210) 150);
    [ reflexivity | reflexivity | lia | simpl; lia ].
Defined.

(** X12.  In the state-pattern class, a call that finds the breaker open
    with the cooldown over and the probe counter below its limit invokes
    the service once and hands its outcome to the caller.  If the service
    succeeds, the sample measured from the start of the probe is appended
    and the breaker is closed with [failureCount], [lastFailureTime] and
    the probe counter reset.  If it rejects with a reason other than
    [null] and [undefined], the sample is appended and the breaker is open
    again with [failureCount] and [lastFailureTime] as before and the
    probe counter one higher; the cooldown is not restarted, so a
    following call at the same or a later clock reading is not blocked by
    the open gate: it is a probe again, or it is rejected by the probe
    limit.  If it rejects with [null] or [undefined], the caller gets a
    [TypeError], no sample is appended, and the breaker is left half-open
    with the probe counter one higher and the other counters
    untouched. *)
Theorem state_pattern_probe_outcome
    (ctx : StatePattern.CircuitBreaker) (a : Attempt) (t : Z) :
  StatePattern.state ctx = StatePattern.OpenState ->
  StatePattern.lastFailureTime ctx = Some t ->
  t <> 0 ->
  timeout (StatePattern.config ctx) <= atGate (reads a) - t ->
  StatePattern.halfOpenRequestCount ctx
    < maxHalfOpenRequests (StatePattern.config ctx) ->
  exists ctx',
    StatePattern.callService ctx a = Some (ctx', reached a)
    /\ (succeeds a ->
        StatePattern.getResponseTimes ctx'
          = StatePattern.getResponseTimes ctx
              ++ [atSettle (reads a) - atProbe (reads a)]
        /\ StatePattern.getState ctx' = CLOSED
        /\ StatePattern.failureCount ctx' = 0
        /\ StatePattern.lastFailureTime ctx' = None
        /\ StatePattern.halfOpenRequestCount ctx' = 0)
    /\ (failsWithReason a ->
        StatePattern.getResponseTimes ctx'
          = StatePattern.getResponseTimes ctx
              ++ [atSettle (reads a) - atProbe (reads a)]
        /\ StatePattern.getState ctx' = OPEN
        /\ StatePattern.failureCount ctx' = StatePattern.failureCount ctx
        /\ StatePattern.lastFailureTime ctx' = Some t
        /\ StatePattern.halfOpenRequestCount ctx'
           = StatePattern.halfOpenRequestCount ctx + 1
        /\ forall b : Attempt,
            atGate (reads a) <= atGate (reads b) ->
            exists ctx'' r,
              StatePattern.callService ctx' b = Some (ctx'', r)
              /\ r <> blockedReport)
    /\ (settles a = RejectedNullish ->
        ctx' = StatePattern.incrementHalfOpenRequest
                 (StatePattern.setState ctx StatePattern.HalfOpenState)).
Proof.
  intros Hst Hl Ht Hgate Hcount.
  assert (E : cooldownElapsed (StatePattern.lastFailureTime ctx)
                (atGate (reads a)) (timeout (StatePattern.config ctx)) = true)
    by (apply cooldownElapsed_true; exists t; auto).
  destruct ctx as [st fc lft cfg rts hc]; destruct a as [[v | e |] rd];
    sp_fields; subst st lft;
    unfold StatePattern.getResponseTimes, StatePattern.getState, succeeds,
      failsWithReason, reached;
    assert (G : (hc >=? maxHalfOpenRequests cfg) = false)
      by (destruct (Z.geb_spec hc (maxHalfOpenRequests cfg));
          [ lia | reflexivity ]);
    unfold_sp; sp_fields; rewrite E; sp_fields; rewrite G; sp_fields;
    (eexists; split; [ reflexivity | ]); sp_fields.
  - split; [ | split ].
    + intros _; repeat split.
    + discriminate.
    + discriminate.
  - split; [ | split ].
    + discriminate.
    + intros _. split; [ reflexivity | ].
      split; [ reflexivity | ]. split; [ reflexivity | ].
      split; [ reflexivity | ]. split; [ reflexivity | ].
      intros b Hb.
      assert (E' : cooldownElapsed (Some t) (atGate (reads b)) (timeout cfg)
                   = true)
        by (apply cooldownElapsed_true; exists t; repeat split; auto; lia).
      rewrite E'. sp_fields.
      destruct (hc + 1 >=? maxHalfOpenRequests cfg); sp_fields.
      * eexists; eexists; split; [ reflexivity | discriminate ].
      * destruct (settles b); eexists; eexists;
          (split; [ reflexivity | discriminate ]).
    + discriminate.
  - split; [ | split ].
    + discriminate.
    + discriminate.
    + reflexivity.
Qed.

Lemma state_pattern_probe_outcome_witness :
  exists ctx',
    StatePattern.callService openSince150 (failing 200 210)
      = Some (ctx', reached (failing 200 210))
    /\ (succeeds (failing 200 210) ->
        StatePattern.getResponseTimes ctx'
          = StatePattern.getResponseTimes openSince150
              ++ [atSettle (reads (failing 200 210))
                  - atProbe (reads (failing 200 210))]
        /\ StatePattern.getState ctx' = CLOSED
        /\ StatePattern.failureCount ctx' = 0
        /\ StatePattern.lastFailureTime ctx' = None
        /\ StatePattern.halfOpenRequestCount ctx' = 0)
    /\ (failsWithReason (failing 200 210) ->
        StatePattern.getResponseTimes ctx'
          = StatePattern.getResponseTimes openSince150
              ++ [atSettle (reads (failing 200 210))
                  - atProbe (reads (failing 200 210))]
        /\ StatePattern.getState ctx' = OPEN
        /\ StatePattern.failureCount ctx'
           = StatePattern.failureCount openSince150
        /\ StatePattern.lastFailureTime ctx' = Some 150
        /\ StatePattern.halfOpenRequestCount ctx'
           = StatePattern.halfOpenRequestCount openSince150 + 1
        /\ forall b : Attempt,
            atGate (reads (failing 200 210)) <= atGate (reads b) ->
            exists ctx'' r,
              StatePattern.callService ctx' b = Some (ctx'', r)
              /\ r <> blockedReport)
    /\ (settles (failing 200 210) = RejectedNullish ->
        ctx' = StatePattern.incrementHalfOpenRequest
                 (StatePattern.setState openSince150
                    StatePattern.HalfOpenState)).
Proof.
  apply (state_pattern_probe_outcome openSince150 (failing 200 210) 150);
    [ reflexivity | reflexivity | lia | simpl; lia | simpl; lia ].
Defined.

(** ** The response-time history, call by call *)

Lemma EN_call_sample (this : EnumVariant.CircuitBreaker) (a : Attempt) :
  EnumVariant.responseTimes (fst (EnumVariant.callService this a))
  = EnumVariant.responseTimes this
      ++ samplesOf a (snd (EnumVariant.callService this a)).
Proof.
  destruct this as [st fc lft cfg rts]; destruct a as [[v | e |] rd];
    destruct st; unfold_en; en_fields;
    repeat (break_if; en_fields); cbn; rewrite ?app_nil_r; reflexivity.
Qed.

(** X13.  In the enum class every awaited call answers with one report,
    and [responseTimes] grows in call order by what each call leaves:
    the time the gate check took when the call was blocked; the time from
    the entry of the call to the settlement of the service when the
    service was invoked; and nothing when the service was invoked and
    rejected with [null] or [undefined].  So a call never leaves more
    than one sample, and earlier samples are never changed or dropped. *)
Theorem enum_history_grows_call_by_call (attempts : list Attempt) :
  forall this : EnumVariant.CircuitBreaker,
    List.length (snd (EnumVariant.run this attempts)) = List.length attempts
    /\ EnumVariant.getResponseTimes (fst (EnumVariant.run this attempts))
       = EnumVariant.getResponseTimes this
           ++ flat_map (fun p => samplesOf (fst p) (snd p))
                (combine attempts (snd (EnumVariant.run this attempts))).
Proof.
  unfold EnumVariant.getResponseTimes.
  induction attempts as [| a rest IH]; intros this; simpl.
  - rewrite app_nil_r; auto.
  - pose proof (EN_call_sample this a) as S.
    destruct (EnumVariant.callService this a) as [this1 r]; simpl in S.
    specialize (IH this1).
    destruct (EnumVariant.run this1 rest) as [this2 rs]; simpl in *.
    destruct IH as [L T]. split; [ congruence | ].
    rewrite T, S, <- app_assoc. reflexivity.
Qed.

Lemma sampledCalls_le (rs : list Report) :
  (sampledCalls rs <= List.length rs)%nat.
Proof.
  unfold sampledCalls. induction rs as [| r rest IH]; simpl; [ lia | ].
  destruct (negb (probeLimitRejection r || typeErrorReport r)); simpl; lia.
Qed.

(** X14.  In the state-pattern class a loop of awaited calls always runs
    to its end with one report per call, and [responseTimes] grows by the
    number of calls that were neither rejected by the probe limit nor
    ended by the [TypeError] of a [catch] block (a service that rejected
    with [null] or [undefined]), hence by at most one sample per call. *)
Theorem state_pattern_history_skips_unrecorded_calls
    (ctx : StatePattern.CircuitBreaker) (attempts : list Attempt) :
  exists ctx' rs,
    StatePattern.run ctx attempts = Some (ctx', rs)
    /\ List.length rs = List.length attempts
    /\ List.length (StatePattern.getResponseTimes ctx')
       = (List.length (StatePattern.getResponseTimes ctx) + sampledCalls rs)%nat
    /\ (sampledCalls rs <= List.length attempts)%nat.
Proof.
  destruct (SP_run_total attempts ctx) as (ctx' & rs & E & L).
  exists ctx', rs. repeat split; auto.
  - exact (SP_run_samples attempts ctx ctx' rs E).
  - rewrite <- L. apply sampledCalls_le.
Qed.

(** ** The two loops of the driver *)

Lemma timeDirectCalls_spec (attempts : list Attempt) :
  Forall readable attempts ->
  forall responseTimes : list Z,
    Driver.timeDirectCalls responseTimes attempts
    = responseTimes
        ++ map (fun a => atSettle (reads a) - atEntry (reads a)) attempts.
Proof.
  induction 1 as [| a rest Ra Rrest IH]; intros acc; simpl.
  - rewrite app_nil_r; reflexivity.
  - destruct (settles a) eqn:S; try (unfold readable in Ra; rewrite S in Ra;
                                     discriminate Ra);
      rewrite IH, <- app_assoc; reflexivity.
Qed.

Lemma schedule_length (env : nat -> Driver.Fetch) :
  List.length (Driver.schedule env) = 30%nat.
Proof.
  unfold Driver.schedule, Driver.iterations.
  rewrite length_map, length_seq; reflexivity.
Qed.

(** [fetchData] resolves or rejects with an [Error]. *)
Lemma schedule_readable (env : nat -> Driver.Fetch) :
  Forall readable (Driver.schedule env).
Proof.
  unfold Driver.schedule. apply Forall_map, Forall_forall. intros i _.
  unfold readable, Driver.fetchData; simpl.
  destruct (Driver.failureDrawn (env i)); reflexivity.
Qed.

Lemma Forall_readable_firstn (k : nat) (attempts : list Attempt) :
  Forall readable attempts -> Forall readable (firstn k attempts).
Proof.
  intros H; revert k; induction H as [| a rest Ha Hrest IH]; intros [| k];
    simpl; constructor; auto.
Qed.

Lemma entrySamples_readable (attempts : list Attempt) :
  Forall readable attempts ->
  entrySamples attempts
  = map (fun a => atSettle (reads a) - atEntry (reads a)) attempts.
Proof.
  unfold entrySamples.
  induction 1 as [| a rest Ra Rrest IH]; simpl; [ reflexivity | ].
  unfold readable in Ra; rewrite Ra; simpl. rewrite IH; reflexivity.
Qed.

(** X15.  Whatever [fetchData] draws in the thirty iterations,
    [runWithoutCircuitBreaker] returns thirty samples and
    [runWithCircuitBreaker] over the enum class returns thirty samples;
    over the state-pattern class it returns between five and thirty: the
    first five calls always reach the service, because the breaker of the
    driver needs five failures to open.  The lists handed to
    [calculateAverage] are therefore never empty. *)
Theorem driver_sample_counts (env : nat -> Driver.Fetch) :
  List.length (Driver.runWithoutCircuitBreaker env) = 30%nat
  /\ List.length (Driver.runWithCircuitBreaker_enum env) = 30%nat
  /\ exists times,
      Driver.runWithCircuitBreaker_statePattern env = Some times
      /\ (5 <= List.length times <= 30)%nat.
Proof.
  pose proof (schedule_readable env) as R.
  split; [ | split ].
  - unfold Driver.runWithoutCircuitBreaker.
    rewrite (timeDirectCalls_spec _ R), length_app.
    rewrite (length_map (fun a => atSettle (reads a) - atEntry (reads a))
               (Driver.schedule env)).
    exact (schedule_length env).
  - unfold Driver.runWithCircuitBreaker_enum.
    pose proof (EN_run_samples (Driver.schedule env)
                  (EnumVariant.new Driver.config) R) as H.
    destruct (EnumVariant.run _ _) as [this rs]; cbn [fst] in H.
    rewrite H, schedule_length; reflexivity.
  - unfold Driver.runWithCircuitBreaker_statePattern.
    pose proof (schedule_length env) as L.
    pose proof (Forall_readable_firstn 5 _ R) as R5.
    rewrite <- (firstn_skipn 5 (Driver.schedule env)).
    destruct (SP_closed_calls_within_threshold
                (firstn 5 (Driver.schedule env))
                (StatePattern.new Driver.config))
      as (c & E & T); [ reflexivity | simpl; lia | | ].
    { rewrite length_firstn, L; simpl; lia. }
    destruct (SP_run_total (skipn 5 (Driver.schedule env)) c)
      as (c' & rs & E' & L').
    rewrite (SP_run_app _ (skipn 5 (Driver.schedule env)) _ _ _ E), E'.
    eexists; split; [ reflexivity | ].
    rewrite (SP_run_samples _ _ _ _ E'), T, (entrySamples_readable _ R5),
      length_app.
    rewrite (length_map (fun a => atSettle (reads a) - atEntry (reads a))
               (firstn 5 (Driver.schedule env))), length_firstn, L.
    pose proof (sampledCalls_le rs) as B.
    rewrite L', length_skipn, L in B.
    change (List.length (StatePattern.getResponseTimes
                           (StatePattern.new Driver.config))) with 0%nat.
    lia.
Qed.

(** X16.  When [fetchData] fails in none of the thirty iterations, the
    loop with the breaker returns exactly the list of response times that
    the loop without it measures in the same environment, for either
    class: the breaker adds nothing to the measurements. *)
Theorem driver_breaker_is_invisible_without_failures
    (env : nat -> Driver.Fetch) :
  (forall i : nat, Driver.failureDrawn (env i) = false) ->
  Driver.runWithCircuitBreaker_statePattern env
    = Some (Driver.runWithoutCircuitBreaker env)
  /\ Driver.runWithCircuitBreaker_enum env
     = Driver.runWithoutCircuitBreaker env.
Proof.
  intros H.
  assert (F : Forall succeeds (Driver.schedule env)).
  { unfold Driver.schedule. apply Forall_map, Forall_forall. intros i _.
    unfold succeeds, Driver.fetchData; simpl. rewrite H; reflexivity. }
  unfold Driver.runWithCircuitBreaker_statePattern,
    Driver.runWithCircuitBreaker_enum, Driver.runWithoutCircuitBreaker.
  split.
  - destruct (SP_closed_successes (Driver.schedule env)
                (StatePattern.new Driver.config) eq_refl F)
      as (c & E & _ & T & _).
    rewrite E, T; reflexivity.
  - destruct (EN_closed_successes (Driver.schedule env)
                (EnumVariant.new Driver.config) eq_refl F)
      as (_ & _ & T & _).
    destruct (EnumVariant.run _ _) as [this rs]; cbn [fst] in T.
    exact T.
Qed.

Lemma driver_breaker_is_invisible_without_failures_witness :
  Driver.runWithCircuitBreaker_statePattern
    (fun i => Driver.mkFetch false
                (readsAt (1200 * Z.of_nat i) (1200 * Z.of_nat i + 700)))
    = Some (Driver.runWithoutCircuitBreaker
              (fun i => Driver.mkFetch false
                          (readsAt (1200 * Z.of_nat i)
                             (1200 * Z.of_nat i + 700))))
  /\ Driver.runWithCircuitBreaker_enum
       (fun i => Driver.mkFetch false
                   (readsAt (1200 * Z.of_nat i) (1200 * Z.of_nat i + 700)))
     = Driver.runWithoutCircuitBreaker
         (fun i => Driver.mkFetch false
                     (readsAt (1200 * Z.of_nat i) (1200 * Z.of_nat i + 700))).
Proof.
  apply (driver_breaker_is_invisible_without_failures
           (fun i => Driver.mkFetch false
                       (readsAt (1200 * Z.of_nat i)
                          (1200 * Z.of_nat i + 700)))).
  intros i; reflexivity.
Defined.

(** ** Consecutive failures *)

Lemma SP_closed_streak (attempts : list Attempt) :
  forall ctx : StatePattern.CircuitBreaker,
    StatePattern.state ctx = StatePattern.ClosedState ->
    streakBelow (failureThreshold (StatePattern.config ctx))
      (StatePattern.failureCount ctx) attempts = true ->
    exists ctx',
      StatePattern.run ctx attempts = Some (ctx', map reached attempts)
      /\ StatePattern.state ctx' = StatePattern.ClosedState
      /\ StatePattern.config ctx' = StatePattern.config ctx
      /\ StatePattern.failureCount ctx'
         = streakAfter (StatePattern.failureCount ctx) attempts.
Proof.
  induction attempts as [| a rest IH]; intros ctx Hst Hb.
  - exists ctx; simpl; auto.
  - destruct ctx as [st fc lft cfg rts hc]; sp_fields; subst st.
    cbn [streakBelow streakAfter] in *.
    apply andb_true_iff in Hb as [Hlt Hrest]. apply Z.ltb_lt in Hlt.
    destruct a as [[v | e |] rd]; unfold streakStep in *;
      cbn [settles] in *.
    + destruct (IH (StatePattern.mkCircuitBreaker StatePattern.ClosedState 0
                      None cfg (rts ++ [atSettle rd - atEntry rd]) 0)
                   eq_refl Hrest) as (ctx' & E & S & C & F).
      exists ctx'. cbn [StatePattern.run map]. unfold_sp; sp_fields.
      rewrite E; auto.
    + destruct (IH (StatePattern.mkCircuitBreaker StatePattern.ClosedState
                      (fc + 1) (Some (atFailure rd)) cfg
                      (rts ++ [atSettle rd - atEntry rd]) hc)
                   eq_refl Hrest) as (ctx' & E & S & C & F).
      exists ctx'. cbn [StatePattern.run map]. unfold_sp; sp_fields.
      destruct (Z.geb_spec (fc + 1) (failureThreshold cfg)); [ lia | ].
      rewrite E; auto.
    + destruct (IH (StatePattern.mkCircuitBreaker StatePattern.ClosedState fc
                      lft cfg rts hc)
                   eq_refl Hrest) as (ctx' & E & S & C & F).
      exists ctx'. cbn [StatePattern.run map]. unfold_sp; sp_fields.
      rewrite E; auto.
Qed.

Lemma EN_closed_streak (attempts : list Attempt) :
  forall this : EnumVariant.CircuitBreaker,
    EnumVariant.state this = CLOSED ->
    streakBelow (failureThreshold (EnumVariant.config this))
      (EnumVariant.failureCount this) attempts = true ->
    snd (EnumVariant.run this attempts) = map reached attempts
    /\ EnumVariant.state (fst (EnumVariant.run this attempts)) = CLOSED
    /\ EnumVariant.config (fst (EnumVariant.run this attempts))
       = EnumVariant.config this
    /\ EnumVariant.failureCount (fst (EnumVariant.run this attempts))
       = streakAfter (EnumVariant.failureCount this) attempts.
Proof.
  induction attempts as [| a rest IH]; intros this Hst Hb.
  - simpl; auto.
  - destruct this as [st fc lft cfg rts]; en_fields; subst st.
    cbn [streakBelow streakAfter] in *.
    apply andb_true_iff in Hb as [Hlt Hrest]. apply Z.ltb_lt in Hlt.
    destruct a as [[v | e |] rd]; unfold streakStep in *;
      cbn [settles] in *.
    + specialize (IH (EnumVariant.mkCircuitBreaker CLOSED 0 None cfg
                        (rts ++ [atSettle rd - atEntry rd])) eq_refl Hrest).
      cbn [EnumVariant.run map]. unfold_en; en_fields.
      destruct (EnumVariant.run _ rest) as [this' rs] eqn:E.
      cbn [fst snd] in *. destruct IH as (R & S & C & F).
      rewrite R; auto.
    + specialize (IH (EnumVariant.mkCircuitBreaker CLOSED (fc + 1)
                        (Some (atFailure rd)) cfg
                        (rts ++ [atSettle rd - atEntry rd])) eq_refl Hrest).
      cbn [EnumVariant.run map]. unfold_en; en_fields.
      destruct (Z.geb_spec (fc + 1) (failureThreshold cfg)); [ lia | ].
      destruct (EnumVariant.run _ rest) as [this' rs] eqn:E.
      cbn [fst snd] in *. destruct IH as (R & S & C & F).
      rewrite R; auto.
    + specialize (IH (EnumVariant.mkCircuitBreaker CLOSED fc lft cfg rts)
                     eq_refl Hrest).
      cbn [EnumVariant.run map]. unfold_en; en_fields.
      destruct (EnumVariant.run _ rest) as [this' rs] eqn:E.
      cbn [fst snd] in *. destruct IH as (R & S & C & F).
      rewrite R; auto.
Qed.

(** X17.  [failureCount] counts a streak of failures: a success while
    closed forgives the failures before it, a rejection whose reason is
    not [null] or [undefined] adds one, and a rejection with [null] or
    [undefined] is not counted at all, since the [catch] block stops
    before the bookkeeping.  On a fresh breaker of either class, as long
    as no call brings that streak to [failureThreshold], every call
    reaches the service and gets its outcome, the breaker stays closed,
    and [failureCount] is the streak at the end of the sequence.  The
    first rejection with a readable reason that brings the streak to the
    threshold opens the breaker; a rejection with [null] or [undefined]
    at that point leaves it closed. *)
Theorem breaker_opens_on_counted_failure_streak_only
    (cfg : CircuitBreakerConfig) (attempts : list Attempt) :
  streakBelow (failureThreshold cfg) 0 attempts = true ->
  (exists ctx,
      StatePattern.run (StatePattern.new cfg) attempts
        = Some (ctx, map reached attempts)
      /\ StatePattern.getState ctx = CLOSED
      /\ StatePattern.failureCount ctx = streakAfter 0 attempts
      /\ forall a : Attempt,
          exists ctx' r,
            StatePattern.callService ctx a = Some (ctx', r)
            /\ (failsWithReason a ->
                failureThreshold cfg <= streakAfter 0 attempts + 1 ->
                StatePattern.getState ctx' = OPEN)
            /\ (settles a = RejectedNullish ->
                StatePattern.getState ctx' = CLOSED
                /\ StatePattern.failureCount ctx' = streakAfter 0 attempts))
  /\ snd (EnumVariant.run (EnumVariant.new cfg) attempts) = map reached attempts
  /\ EnumVariant.getState (fst (EnumVariant.run (EnumVariant.new cfg) attempts))
     = CLOSED
  /\ EnumVariant.failureCount
       (fst (EnumVariant.run (EnumVariant.new cfg) attempts))
     = streakAfter 0 attempts
  /\ forall a : Attempt,
      (failsWithReason a ->
       failureThreshold cfg <= streakAfter 0 attempts + 1 ->
       EnumVariant.getState
         (fst (EnumVariant.callService
                 (fst (EnumVariant.run (EnumVariant.new cfg) attempts)) a))
       = OPEN)
      /\ (settles a = RejectedNullish ->
          EnumVariant.getState
            (fst (EnumVariant.callService
                    (fst (EnumVariant.run (EnumVariant.new cfg) attempts)) a))
          = CLOSED
          /\ EnumVariant.failureCount
               (fst (EnumVariant.callService
                       (fst (EnumVariant.run (EnumVariant.new cfg) attempts))
                       a))
             = streakAfter 0 attempts).
Proof.
  intros H. split.
  - destruct (SP_closed_streak attempts (StatePattern.new cfg) eq_refl H)
      as (ctx & E & S & C & F).
    cbn [StatePattern.new StatePattern.failureCount StatePattern.config] in C, F.
    exists ctx. split; [ exact E | ].
    split; [ unfold StatePattern.getState; rewrite S; reflexivity | ].
    split; [ exact F | ].
    intros [[v | e |] rd];
      destruct ctx as [st fc lft cfg' rts hc]; sp_fields; subst st cfg' fc;
      unfold failsWithReason, StatePattern.getState; unfold_sp; sp_fields.
    + eexists; eexists; split; [ reflexivity | ].
      split; [ discriminate | discriminate ].
    + destruct (Z.geb_spec (streakAfter 0 attempts + 1) (failureThreshold cfg));
        (eexists; eexists; split; [ reflexivity | ]);
        (split; [ intros _ Hthr; try reflexivity; lia | discriminate ]).
    + eexists; eexists; split; [ reflexivity | ].
      split; [ discriminate | intros _; split; reflexivity ].
  - pose proof (EN_closed_streak attempts (EnumVariant.new cfg) eq_refl H)
      as (R & S & C & F).
    cbn [EnumVariant.new EnumVariant.failureCount EnumVariant.config] in C, F.
    destruct (EnumVariant.run (EnumVariant.new cfg) attempts) as [this rs].
    cbn [fst snd] in *.
    split; [ exact R | split; [ exact S | split; [ exact F | ] ] ].
    intros [[v | e |] rd];
      destruct this as [st fc lft cfg' rts]; en_fields; subst st cfg' fc;
      unfold failsWithReason, EnumVariant.getState; unfold_en; en_fields.
    + split; [ discriminate | discriminate ].
    + destruct (Z.geb_spec (streakAfter 0 attempts + 1) (failureThreshold cfg));
        (split; [ intros _ Hthr; try reflexivity; lia | discriminate ]).
    + split; [ discriminate | intros _; split; reflexivity ].
Qed.

Lemma breaker_opens_on_counted_failure_streak_only_witness :
  (exists ctx,
      StatePattern.run (StatePattern.new scenarioConfig)
        [failing 0 10; failing 500 510; succeeding 1000 1010;
         failing 1500 1510; nullishFailing 1800 1810; failing 2000 2010]
        = Some (ctx, map reached
                       [failing 0 10; failing 500 510; succeeding 1000 1010;
                        failing 1500 1510; nullishFailing 1800 1810;
                        failing 2000 2010])
      /\ StatePattern.getState ctx = CLOSED
      /\ StatePattern.failureCount ctx = 2)
  /\ EnumVariant.failureCount
       (fst (EnumVariant.run (EnumVariant.new scenarioConfig)
               [failing 0 10; failing 500 510; succeeding 1000 1010;
                failing 1500 1510; nullishFailing 1800 1810;
                failing 2000 2010]))
     = 2.
Proof.
  destruct (breaker_opens_on_counted_failure_streak_only scenarioConfig
              [failing 0 10; failing 500 510; succeeding 1000 1010;
               failing 1500 1510; nullishFailing 1800 1810; failing 2000 2010]
              eq_refl)
    as ((ctx & E & S & F & _) & _ & _ & F' & _).
  split; [ exists ctx; repeat split; assumption | exact F' ].
Defined.
